(** * Earthquake statistics: a model of [earthquakes.py] and [plot_earthquakes.py]

    The two scripts read a GeoJSON-like document of earthquake records,
    scan it for the strongest event and aggregate it per calendar year.
    This development embeds the Python functions as Rocq functions over
    a small model of the Python values that [json.loads] produces, with
    exceptions made explicit, and proves the properties the
    specification states about them.

    Conventions of the model:
    - a Python [float] is held as the rational number ([Q]) it stands
      for; NaN and the infinities, which the specification's data model
      excludes ("magnitude is a finite real number"), have no
      representative.  The two places where the program computes with
      floats round as binary64 does: the division [timestamp / 1000]
      by [round_binary64], and [numpy.mean], whose order of summation
      is numpy's own, by a parameter of the model;
    - a Python [dict] is an association list in insertion order, the
      order [dict] iteration, [max] and [min] observe;
    - a raised exception is the [Raise] branch of [result]. *)

From Stdlib Require Import ZArith QArith Qround Qabs Qpower List String Ascii Bool Lia.
From Stdlib Require Import DecimalString.
From Stdlib Require Import Sorted Permutation Lqa.
Import ListNotations.
Local Open Scope string_scope.
Local Open Scope list_scope.
Local Open Scope Z_scope.

(** ** Exceptions and results *)

(** The exception classes the two scripts can meet.  [HTTPError] and
    [ConnectionError] are classes of the [requests] library. *)
Inductive exn : Type :=
  | KeyError
  | TypeError
  | IndexError
  | ValueError
  | OverflowError
  | OSError
  | ZeroDivisionError
  | HTTPError
  | ConnectionError
  | JSONDecodeError.

Inductive result (A : Type) : Type :=
  | Ok (a : A)
  | Raise (e : exn).
Arguments Ok {A} a.
Arguments Raise {A} e.

Definition bind {A B : Type} (r : result A) (k : A -> result B) : result B :=
  match r with
  | Ok a => k a
  | Raise e => Raise e
  end.

Notation "x <- e ;; k" := (bind e (fun x => k))
  (at level 61, e at next level, right associativity).
Notation "' p <- e ;; k" := (bind e (fun x => let 'p := x in k))
  (at level 61, p pattern, e at next level, right associativity).

(** [except (KeyError, TypeError)] of [get_annual_statistics]. *)
Definition is_KeyError_or_TypeError (e : exn) : bool :=
  match e with
  | KeyError | TypeError => true
  | _ => false
  end.

(** The exceptions with which [date.fromtimestamp(timestamp / 1000)]
    refuses a number: none of them is caught by
    [get_annual_statistics]. *)
Definition is_range_error (e : exn) : bool :=
  match e with
  | ValueError | OverflowError | OSError => true
  | _ => false
  end.

(** ** Python values read from JSON *)

Inductive number : Type :=
  | Int (z : Z)
  | Float (q : Q).

#[local] Unset Elimination Schemes.
Inductive json : Type :=
  | JNull                                   (* None *)
  | JBool (b : bool)
  | JNum (n : number)
  | JStr (s : string)
  | JList (l : list json)
  | JDict (d : list (string * json)).
#[local] Set Elimination Schemes.

Definition Qnum_of (n : number) : Q :=
  match n with
  | Int z => inject_Z z
  | Float q => q
  end.

(** The numeric value of a Python object in arithmetic and ordering:
    [bool] is a subclass of [int]; every other non-number has none. *)
Definition to_Q (v : json) : option Q :=
  match v with
  | JNum n => Some (Qnum_of n)
  | JBool b => Some (if b then 1%Q else 0%Q)
  | _ => None
  end.

Definition is_number (v : json) : bool :=
  match to_Q v with
  | Some _ => true
  | None => false
  end.

Fixpoint dict_get {V : Type} (d : list (string * V)) (k : string) : option V :=
  match d with
  | [] => None
  | (k', v) :: rest => if String.eqb k' k then Some v else dict_get rest k
  end.

(** [obj[key]] with a string key: a [dict] looks the key up, a [list]
    or [str] rejects a string index, the other objects are not
    subscriptable. *)
Definition subscript (obj : json) (key : string) : result json :=
  match obj with
  | JDict d =>
      match dict_get d key with
      | Some v => Ok v
      | None => Raise KeyError
      end
  | _ => Raise TypeError
  end.

Fixpoint chars (s : string) : list json :=
  match s with
  | EmptyString => []
  | String c rest => JStr (String c EmptyString) :: chars rest
  end.

(** [obj[i]] with a non-negative integer index.  A [dict] read from
    JSON has string keys only, so an integer key is always missing. *)
Definition index (obj : json) (i : nat) : result json :=
  match obj with
  | JList l =>
      match nth_error l i with
      | Some v => Ok v
      | None => Raise IndexError
      end
  | JStr s =>
      match nth_error (chars s) i with
      | Some v => Ok v
      | None => Raise IndexError
      end
  | JDict _ => Raise KeyError
  | _ => Raise TypeError
  end.

(** The sequence a [for] loop walks: the elements of a [list], the keys
    of a [dict], the characters of a [str]. *)
Definition iter (obj : json) : result (list json) :=
  match obj with
  | JList l => Ok l
  | JDict d => Ok (map (fun kv => JStr (fst kv)) d)
  | JStr s => Ok (chars s)
  | _ => Raise TypeError
  end.

Definition len (obj : json) : result nat :=
  match obj with
  | JList l => Ok (List.length l)
  | JDict d => Ok (List.length d)
  | JStr s => Ok (String.length s)
  | _ => Raise TypeError
  end.

(** [a > b] for a number [b].  In [get_maximum] the right operand is
    [max_magnitude], which starts as [-1] and is only ever replaced by
    a value that has compared greater than a number, so it is always a
    number (lemma [get_maximum_loop_number]); comparing a number with
    [None], a [str], a [list] or a [dict] raises [TypeError]. *)
Definition gt (a b : json) : result bool :=
  match to_Q a, to_Q b with
  | Some x, Some y => Ok (negb (Qle_bool x y))
  | _, _ => Raise TypeError
  end.

(** ** [earthquakes.py] *)

Module Earthquakes.

(** [len(data["features"])] *)
Definition count_earthquakes (data : json) : result nat :=
  features <- subscript data "features" ;;
  len features.

(** [earthquake["properties"]["mag"]] *)
Definition get_magnitude (earthquake : json) : result json :=
  properties <- subscript earthquake "properties" ;;
  subscript properties "mag".

(** [coordinates[1], coordinates[0]]: GeoJSON stores
    [longitude, latitude, altitude], the function returns
    (latitude, longitude). *)
Definition get_location (earthquake : json) : result (json * json) :=
  geometry <- subscript earthquake "geometry" ;;
  coordinates <- subscript geometry "coordinates" ;;
  latitude <- index coordinates 1 ;;
  longitude <- index coordinates 0 ;;
  Ok (latitude, longitude).

(** The [for] loop of [get_maximum], threading the two local variables
    [max_magnitude] and [max_earthquake]. *)
Fixpoint get_maximum_loop (features : list json)
    (max_magnitude max_earthquake : json) : result (json * json) :=
  match features with
  | [] => Ok (max_magnitude, max_earthquake)
  | earthquake :: rest =>
      magnitude <- get_magnitude earthquake ;;
      greater <- gt magnitude max_magnitude ;;
      if greater
      then get_maximum_loop rest magnitude earthquake
      else get_maximum_loop rest max_magnitude max_earthquake
  end.

Definition get_maximum (data : json) : result (json * (json * json)) :=
  features <- subscript data "features" ;;
  earthquakes <- iter features ;;
  '(max_magnitude, max_earthquake) <-
     get_maximum_loop earthquakes (JNum (Int (-1))) JNull ;;
  max_location <- get_location max_earthquake ;;
  Ok (max_magnitude, max_location).

(** A record [e] whose magnitude is the Python number [m], of value
    [q]. *)
Definition has_magnitude (e m : json) (q : Q) : Prop :=
  get_magnitude e = Ok m /\ to_Q m = Some q.

(** Two records of the feed's shape, and a document that holds them. *)
Definition quake_weak : json :=
  JDict [("properties", JDict [("mag", JNum (Float (19 # 10)));
                               ("time", JNum (Int 946684800000))]);
         ("geometry", JDict [("coordinates",
            JList [JNum (Float (-31 # 10)); JNum (Float (553 # 10));
                   JNum (Int 7)])])].

Definition quake_strong : json :=
  JDict [("properties", JDict [("mag", JNum (Float (47 # 10)));
                               ("time", JNum (Int 1203469200000))]);
         ("geometry", JDict [("coordinates",
            JList [JNum (Float (-3 # 10)); JNum (Float (534 # 10));
                   JNum (Float (186 # 10))])])].

Definition two_quakes : json :=
  JDict [("features", JList [quake_weak; quake_strong])].

Definition no_quakes : json := JDict [("features", JList [])].

End Earthquakes.

(** ** The calendar behind [datetime]

    The proleptic Gregorian calendar of [datetime.date], as day numbers
    counted from 1970-01-01. *)

Record date : Type := mkdate { year : Z; month : Z; day : Z }.

Definition civil_from_days (days : Z) : date :=
  let z := days + 719468 in
  let era := z / 146097 in
  let doe := z - era * 146097 in
  let yoe := (doe - doe / 1460 + doe / 36524 - doe / 146096) / 365 in
  let doy := doe - (365 * yoe + yoe / 4 - yoe / 100) in
  let mp := (5 * doy + 2) / 153 in
  let m := if mp <? 10 then mp + 3 else mp - 9 in
  let y := yoe + era * 400 in
  mkdate (if m <=? 2 then y + 1 else y) m (doy - (153 * mp + 2) / 5 + 1).

Definition days_from_civil (y m d : Z) : Z :=
  let y' := if m <=? 2 then y - 1 else y in
  let era := y' / 400 in
  let yoe := y' - era * 400 in
  let doy := (153 * (if 2 <? m then m - 3 else m + 9) + 2) / 5 + d - 1 in
  let doe := yoe * 365 + yoe / 4 - yoe / 100 + doy in
  era * 146097 + doe - 719468.

Definition MINYEAR : Z := 1.
Definition MAXYEAR : Z := 9999.

(** ** Ordered dictionaries keyed by year *)

Fixpoint lookup {V : Type} (d : list (Z * V)) (k : Z) : option V :=
  match d with
  | [] => None
  | (k', v) :: rest => if k' =? k then Some v else lookup rest k
  end.

(** [d[k] = f(d[k])] on a [defaultdict]: a missing key is first
    inserted, at the end, with the default value. *)
Fixpoint defaultdict_update {V : Type} (default : V) (f : V -> V)
    (d : list (Z * V)) (k : Z) : list (Z * V) :=
  match d with
  | [] => [(k, f default)]
  | (k', v) :: rest =>
      if k' =? k then (k', f v) :: rest
      else (k', v) :: defaultdict_update default f rest k
  end.

Definition get_default {V : Type} (default : V) (o : option V) : V :=
  match o with
  | Some v => v
  | None => default
  end.

Definition keys {V : Type} (d : list (Z * V)) : list Z := map fst d.
Definition values {V : Type} (d : list (Z * V)) : list V := map snd d.

(** ** Console output *)

(** What [print] writes.  The f-strings of [print_summary] are kept as
    the values they interpolate; the text layout and the [:.1f]
    rounding are not modelled. *)
Inductive line : Type :=
  | Text (s : string)
  | TimePeriod (first last : Z)
  | TotalEarthquakes (n : nat)
  | YearsCovered (n : nat)
  | AveragePerYear (q : Q)
  | MostActiveYear (y : Z) (n : nat)
  | LeastActiveYear (y : Z) (n : nat).

(** A computation that prints: the lines written so far and the
    outcome.  Lines written before an exception stay written. *)
Definition io (A : Type) : Type := (list line * result A)%type.

Definition print (l : line) : io unit := ([l], Ok tt).
Definition lift {A : Type} (r : result A) : io A := ([], r).

Definition io_bind {A B : Type} (m : io A) (k : A -> io B) : io B :=
  match m with
  | (out, Ok a) => let (out', r) := k a in (out ++ out', r)
  | (out, Raise e) => (out, Raise e)
  end.

Notation "x <<- e ;; k" := (io_bind e (fun x => k))
  (at level 61, e at next level, right associativity).

(** ** Binary floating point *)

(** [binade x]: the exponent [e] with [2^e <= |x| < 2^(e+1)], for [x]
    other than 0. *)
Definition binade (x : Q) : Z :=
  let k := Z.log2 (Z.abs (Qnum x)) - Z.log2 (Zpos (Qden x)) in
  if Qle_bool (Qpower 2 k) (Qabs x) then k else k - 1.

(** The nearest integer, a tie going to the even one. *)
Definition round_half_even (x : Q) : Z :=
  let below := Qfloor x in
  let rest := (x - inject_Z below)%Q in
  if Qle_bool rest (1 # 2)
  then (if Qle_bool (1 # 2) rest
        then (if Z.even below then below else below + 1)
        else below)
  else below + 1.

(** The double nearest to [x], a tie going to the even significand:
    53 significant bits, and the fixed spacing [2^-1074] below
    [2^-1022].  Values beyond the largest double, which round to an
    infinity, are outside the model. *)
Definition round_binary64 (x : Q) : Q :=
  if Qeq_bool x 0 then 0%Q
  else
    let quantum := Qpower 2 (Z.max (binade x) (-1022) - 52) in
    (inject_Z (round_half_even (x / quantum)) * quantum)%Q.

(** The least magnitude that rounds beyond the largest double:
    [2^1024 - 2^970]. *)
Definition float_limit : Q := inject_Z (2 ^ 1024 - 2 ^ 970).

Definition float_overflow (x : Q) : bool := Qle_bool float_limit (Qabs x).

(** The range of the C types [time_t] and [int] on a 64-bit
    platform. *)
Definition TIME_T_MIN : Z := - 2 ^ 63.
Definition TIME_T_MAX : Z := 2 ^ 63 - 1.
Definition INT_MIN : Z := - 2 ^ 31.
Definition INT_MAX : Z := 2 ^ 31 - 1.

(** ** [plot_earthquakes.py] *)

Module PlotEarthquakes.

Definition sample_size : nat := 1000.


Definition is_list (v : json) : bool :=
  match v with
  | JList _ => true
  | _ => false
  end.

(** [round(x, 1)]: the nearest multiple of one tenth, a tie going to
    the even one. *)
Definition round1 (x : Q) : Q :=
  let scaled := (x * 10)%Q in
  let below := Qfloor scaled in
  let rest := (scaled - inject_Z below)%Q in
  let n := if Qle_bool rest (1 # 2)
           then (if Qle_bool (1 # 2) rest
                 then (if Z.even below then below else below + 1)
                 else below)
           else below + 1 in
  Qmake n 10.

Section Environment.

(** The local time zone: [utcoffset t] is the number of seconds local
    time is ahead of UTC at POSIX time [t]. *)
Variable utcoffset : Z -> Z.

(** [mktime w]: the POSIX time at which the local wall clock shows [w]
    seconds after 1970-01-01T00:00:00. *)
Variable mktime : Z -> Z.

(** The draws of the [random] module: what the call of
    [random.randint(a, b)] and of [random.uniform(a, b)] returns in
    pass [i] of the loop of [create_sample_data]. *)
Variable randint : nat -> Z -> Z -> Z.
Variable uniform : nat -> Q -> Q -> Q.

(** [numpy.mean] on two or more doubles: their sum, accumulated in
    numpy's own order and rounded at each addition, divided by their
    count and rounded once more.  The order and the roundings are
    numpy's; the model takes the result as given. *)
Variable np_mean_floats : list Q -> Q.

(** [numpy.mean] on the arguments not modelled below: the empty list
    (whose mean is nan), a list that holds a nested list, which numpy
    reads as an n-dimensional array or rejects as ragged, and a list
    that holds an integer beyond [2^53], which numpy rounds or keeps
    as a Python object. *)
Variable np_mean_other : list json -> result Q.

(** Whether [response.json()] reports a body that is not JSON with an
    exception derived from [requests.RequestException] (it does from
    [requests] 2.27 on, and raised a plain [ValueError] subclass
    before). *)
Variable json_error_is_request_exception : bool.

(** [isinstance(e, requests.RequestException)] *)
Definition is_RequestException (e : exn) : bool :=
  match e with
  | HTTPError | ConnectionError => true
  | JSONDecodeError => json_error_is_request_exception
  | _ => false
  end.

(** *** [create_sample_data] *)

Definition base_date : Z := days_from_civil 2000 1 1.
Definition end_date : Z := days_from_civil 2018 10 11.
Definition days_range : Z := end_date - base_date.

Definition sample_place (i : nat) : string :=
  String.append "Sample Location " (NilEmpty.string_of_uint (Nat.to_uint i)).

(** One pass of the loop body: the record appended for index [i]. *)
Definition sample_feature (i : nat) : json :=
  let random_days := randint i 0 days_range in
  let earthquake_time := (base_date + random_days) * 86400 in
  let timestamp := mktime earthquake_time * 1000 in
  let magnitude := round1 (uniform i 1 6) in
  JDict [("properties",
          JDict [("time", JNum (Int timestamp));
                 ("mag", JNum (Float magnitude));
                 ("place", JStr (sample_place i))])].

Definition create_sample_data : json :=
  JDict [("features", JList (map sample_feature (seq 0 sample_size)))].

(** *** [get_data] *)

Record response : Type := mkresponse {
  status_code : Z;
  (** the parsed body, [None] when the body is not a JSON text *)
  body : option json
}.

(** [response.raise_for_status()]: [HTTPError] on a 4xx or 5xx
    status, nothing otherwise. *)
Definition raise_for_status (r : response) : result unit :=
  if (400 <=? status_code r) && (status_code r <? 600)
  then Raise HTTPError
  else Ok tt.

(** [response.json()] *)
Definition response_json (r : response) : result json :=
  match body r with
  | Some data => Ok data
  | None => Raise JSONDecodeError
  end.

(** [get_data], given what [requests.get] does on this run: it returns
    a response or raises. *)
Definition get_data (requests_get : result response) : io json :=
  match (r <- requests_get ;;
         _ <- raise_for_status r ;;
         response_json r) with
  | Ok data => lift (Ok data)
  | Raise e =>
      if is_RequestException e
      then _ <<- print (Text "Using sample data (API request failed)") ;;
           lift (Ok create_sample_data)
      else lift (Raise e)
  end.

(** *** [get_year] and [get_magnitude] *)

(** [timestamp / 1000], the double nearest to the quotient.  A
    [float] is divided as a float.  An [int] (or a [bool]) is divided
    exactly and the quotient rounded, which raises [OverflowError]
    when the quotient is beyond the largest double. *)
Definition truediv (a : json) (b : Z) : result Q :=
  match a with
  | JNum (Float x) => Ok (round_binary64 (x / inject_Z b))
  | _ =>
      match to_Q a with
      | Some x =>
          if float_overflow (x / inject_Z b) then Raise OverflowError
          else Ok (round_binary64 (x / inject_Z b))
      | None => Raise TypeError
      end
  end.

(** [date.fromtimestamp(t)], as CPython 3.11 computes it on a
    platform with a 64-bit [time_t].  [floor t] is compared with the
    bounds of [time_t] as a double, and among the doubles
    [TIME_T_MAX] is [2^63]: beyond the bounds [OverflowError] is
    raised.  [2^63] itself passes the comparison, but is no [time_t],
    and the C function [localtime] fails on what the conversion makes
    of it, as it fails whenever it cannot store the year less 1900 in
    an [int]: [OSError] is raised.  Last, the local date must lie
    within [MINYEAR..MAXYEAR], or [ValueError] is raised. *)
Definition date_fromtimestamp (t : Q) : result date :=
  let seconds := Qfloor t in
  if negb ((TIME_T_MIN <=? seconds) && (seconds <=? TIME_T_MAX + 1))
  then Raise OverflowError
  else if seconds =? TIME_T_MAX + 1 then Raise OSError
  else
    let local := seconds + utcoffset seconds in
    let d := civil_from_days (local / 86400) in
    if negb ((INT_MIN <=? year d - 1900) && (year d - 1900 <=? INT_MAX))
    then Raise OSError
    else if (MINYEAR <=? year d) && (year d <=? MAXYEAR)
         then Ok d
         else Raise ValueError.

Definition get_year (earthquake : json) : result Z :=
  properties <- subscript earthquake "properties" ;;
  timestamp <- subscript properties "time" ;;
  seconds <- truediv timestamp 1000 ;;
  d <- date_fromtimestamp seconds ;;
  Ok (year d).

Definition get_magnitude (earthquake : json) : result json :=
  properties <- subscript earthquake "properties" ;;
  subscript properties "mag".

(** *** [get_annual_statistics] *)

(** The value numpy gives a list element in an array of doubles: a
    float is itself, a boolean 0 or 1, an integer up to [2^53] in
    magnitude itself. *)
Definition as_double (v : json) : option Q :=
  match v with
  | JNum (Float x) => Some x
  | JNum (Int z) => if Z.abs z <=? 2 ^ 53 then Some (inject_Z z) else None
  | JBool b => Some (if b then 1%Q else 0%Q)
  | _ => None
  end.

Definition is_double (v : json) : bool :=
  match as_double v with
  | Some _ => true
  | None => false
  end.

(** An element that is neither a nested list nor an integer beyond
    [2^53]. *)
Definition plain_magnitude (v : json) : bool :=
  match v with
  | JList _ => false
  | JNum (Int z) => Z.abs z <=? 2 ^ 53
  | _ => true
  end.

Fixpoint doubles (vs : list json) : list Q :=
  match vs with
  | [] => []
  | v :: rest =>
      match as_double v with
      | Some x => x :: doubles rest
      | None => doubles rest
      end
  end.

(** The mean of a non-empty list of doubles.  Of a single double it
    is that double: the sum of one element is the element, and its
    quotient by 1 is exact.  Of more it is what numpy computes. *)
Definition float64_mean (magnitudes : list json) : Q :=
  match doubles magnitudes with
  | [x] => x
  | xs => np_mean_floats xs
  end.

(** [np.mean(magnitudes)] on a Python list: doubles are averaged;
    among plain elements a [None], [str] or [dict] makes the reduction
    raise [TypeError]. *)
Definition np_mean (magnitudes : list json) : result Q :=
  match magnitudes with
  | [] => np_mean_other magnitudes
  | _ =>
      if forallb is_double magnitudes
      then Ok (float64_mean magnitudes)
      else if forallb plain_magnitude magnitudes
           then Raise TypeError
           else np_mean_other magnitudes
  end.

Definition statistics : Type :=
  (list (Z * nat) * list (Z * list json))%type.

(** The body of the [try]: both lookups come before both updates, so
    an exception leaves the dictionaries untouched. *)
Definition read_quake (quake : json) : result (Z * json) :=
  y <- get_year quake ;;
  magnitude <- get_magnitude quake ;;
  Ok (y, magnitude).

(** One pass of the [for] loop with its [try ... except (KeyError,
    TypeError): continue]. *)
Definition record_quake (state : statistics) (quake : json)
    : result statistics :=
  let '(quakes_per_year, magnitudes_per_year) := state in
  match read_quake quake with
  | Ok (y, magnitude) =>
      Ok (defaultdict_update 0%nat S quakes_per_year y,
          defaultdict_update [] (fun l => l ++ [magnitude])
                             magnitudes_per_year y)
  | Raise e =>
      if is_KeyError_or_TypeError e then Ok state else Raise e
  end.

Fixpoint record_quakes (state : statistics) (earthquakes : list json)
    : result statistics :=
  match earthquakes with
  | [] => Ok state
  | quake :: rest =>
      state' <- record_quake state quake ;;
      record_quakes state' rest
  end.

(** The dictionary comprehension [{year: np.mean(magnitudes) ...}]. *)
Fixpoint average_magnitudes (magnitudes_per_year : list (Z * list json))
    : result (list (Z * Q)) :=
  match magnitudes_per_year with
  | [] => Ok []
  | (y, magnitudes) :: rest =>
      mean <- np_mean magnitudes ;;
      avgs <- average_magnitudes rest ;;
      Ok ((y, mean) :: avgs)
  end.

Definition get_annual_statistics (earthquakes : list json)
    : result (list (Z * nat) * list (Z * Q)) :=
  '(quakes_per_year, magnitudes_per_year) <-
     record_quakes ([], []) earthquakes ;;
  avg_magnitudes <- average_magnitudes magnitudes_per_year ;;
  Ok (quakes_per_year, avg_magnitudes).

(** *** Vocabulary for the properties *)

(** How the loop treats a record: it is counted when the body of the
    [try] runs through, skipped when the body raises [KeyError] or
    [TypeError]; any other exception leaves the function. *)
Definition counted (quake : json) : bool :=
  match read_quake quake with
  | Ok _ => true
  | Raise _ => false
  end.

Definition skipped (quake : json) : bool :=
  match read_quake quake with
  | Ok _ => false
  | Raise e => is_KeyError_or_TypeError e
  end.

(** The magnitudes of the counted records of year [y], in input
    order. *)
Fixpoint magnitudes_of_year (y : Z) (earthquakes : list json) : list json :=
  match earthquakes with
  | [] => []
  | quake :: rest =>
      match read_quake quake with
      | Ok (y', magnitude) =>
          if y' =? y then magnitude :: magnitudes_of_year y rest
          else magnitudes_of_year y rest
      | Raise _ => magnitudes_of_year y rest
      end
  end.

(** The counted records of year [y]. *)
Definition in_year (y : Z) (quake : json) : bool :=
  match read_quake quake with
  | Ok (y', _) => y' =? y
  | Raise _ => false
  end.

(** The lists [np.mean] can average: non-empty, of doubles. *)
Definition averageable (ms : list json) : Prop :=
  ms <> [] /\ forallb is_double ms = true.

(** [earthquake["properties"]["time"]], the only part of a record that
    [get_year] reads. *)
Definition timestamp_of (earthquake : json) : result json :=
  properties <- subscript earthquake "properties" ;;
  subscript properties "time".

(** A record whose [properties.time] and [properties.mag] are both
    present and numbers. *)
Definition well_formed (quake : json) : bool :=
  match timestamp_of quake, get_magnitude quake with
  | Ok t, Ok m => is_number t && is_number m
  | _, _ => false
  end.

(** *** The records as the specification describes them

    The definitions below do not go through the functions of the
    program: they read a record straight off the JSON document, as
    the specification's data model and interface describe it. *)

(** The field [name] of the record's [properties] object. *)
Definition property (record : json) (name : string) : option json :=
  match record with
  | JDict fields =>
      match dict_get fields "properties" with
      | Some (JDict properties) => dict_get properties name
      | _ => None
      end
  | _ => None
  end.

(** The second of the epoch that holds the instant [millis]
    milliseconds after it, the quotient by 1000 being a double. *)
Definition epoch_second (millis : Q) : Z :=
  Qfloor (round_binary64 (millis / inject_Z 1000)).

(** The year of the local calendar date at [millis] milliseconds
    after the epoch. *)
Definition local_year (millis : Q) : Z :=
  let seconds := epoch_second millis in
  year (civil_from_days ((seconds + utcoffset seconds) / 86400)).

(** An instant of the calendar: its second fits a [time_t] and its
    local year lies within [MINYEAR..MAXYEAR]. *)
Definition in_calendar (millis : Q) : bool :=
  (TIME_T_MIN <=? epoch_second millis)
  && (epoch_second millis <=? TIME_T_MAX)
  && (MINYEAR <=? local_year millis)
  && (local_year millis <=? MAXYEAR).

(** A valid record, with its derived year and its magnitude: the time
    is a number and an instant of the calendar, the magnitude a number
    that is a double. *)
Definition valid_record (record : json) : option (Z * json) :=
  match property record "time", property record "mag" with
  | Some t, Some m =>
      match to_Q t with
      | Some millis =>
          if is_double m && in_calendar millis
          then Some (local_year millis, m)
          else None
      | None => None
      end
  | _, _ => None
  end.

Definition valid_in_year (y : Z) (record : json) : bool :=
  match valid_record record with
  | Some (y', _) => y' =? y
  | None => false
  end.

(** The magnitude of a record, [None] when it has none. *)
Definition magnitude_of (record : json) : json :=
  match property record "mag" with
  | Some m => m
  | None => JNull
  end.


End Environment.

(** *** The data model of the specification *)

(** The record type of the specification's data model. *)
Record EarthquakeRecord : Type := mkrecord {
  magnitude : Q;
  timeMillis : Z;
  longitude : Q;
  latitude : Q;
  place : option string
}.

(** Reading a feature as an [EarthquakeRecord], field by field as the
    specification lays the feed out: [properties.mag] a float,
    [properties.time] an integer, [geometry.coordinates] starting with
    longitude and latitude, [properties.place] a string when given. *)
Definition EarthquakeRecord_of_feature (feature : json)
    : option EarthquakeRecord :=
  match subscript feature "properties", subscript feature "geometry" with
  | Ok properties, Ok geometry =>
      match subscript properties "mag", subscript properties "time",
            subscript geometry "coordinates" with
      | Ok (JNum (Float mag)), Ok (JNum (Int time)),
        Ok (JList (JNum lon :: JNum lat :: _)) =>
          match subscript properties "place" with
          | Ok (JStr p) => Some (mkrecord mag time (Qnum_of lon) (Qnum_of lat) (Some p))
          | Ok JNull | Raise KeyError =>
              Some (mkrecord mag time (Qnum_of lon) (Qnum_of lat) None)
          | _ => None
          end
      | _, _, _ => None
      end
  | _, _ => None
  end.

(** *** Sample environments and inputs *)

(** A machine whose local time is UTC. *)
Definition UTC (t : Z) : Z := 0.
Definition mktime_UTC (w : Z) : Z := w.

(** A machine one hour ahead of UTC. *)
Definition CET (t : Z) : Z := 3600.

(** numpy from 1.24 on rejects a ragged nested list with
    [ValueError]. *)
Definition np_mean_ragged (magnitudes : list json) : result Q :=
  Raise ValueError.

(** A mean in doubles: the elements are added one after the other,
    each sum rounded to a double, and the total divided by the count
    and rounded.  This is what numpy returns on the short lists of
    the examples below. *)
Definition binary64_mean (values : list Q) : Q :=
  round_binary64
    (fold_left (fun total x => round_binary64 (total + x)) values 0
     / inject_Z (Z.of_nat (List.length values)))%Q.




Definition randint_example (i : nat) (a b : Z) : Z := a + Z.of_nat i.
Definition uniform_example (i : nat) (a b : Q) : Q := 314 # 100.

(** 2000-01-01T00:00:00Z, magnitude 1.9 *)
Definition quake_2000 : json :=
  JDict [("properties", JDict [("time", JNum (Int 946684800000));
                               ("mag", JNum (Float (19 # 10)))])].

(** 2017-07-14T02:40:00Z, magnitude 3 *)
Definition quake_2017 : json :=
  JDict [("properties", JDict [("time", JNum (Int 1500000000000));
                               ("mag", JNum (Int 3))])].

(** A record without [properties.time]. *)
Definition quake_no_time : json :=
  JDict [("properties", JDict [("mag", JNum (Float (21 # 10)))])].

(** A record whose magnitude is [null], as the feed reports an
    undetermined magnitude. *)
Definition quake_null_mag : json :=
  JDict [("properties", JDict [("time", JNum (Int 946684800000));
                               ("mag", JNull)])].

(** A record dated in milliseconds far past year 9999. *)
Definition quake_far_future : json :=
  JDict [("properties", JDict [("time", JNum (Int 1000000000000000000));
                               ("mag", JNum (Float (19 # 10)))])].

(** The last second of 1999 in UTC. *)
Definition quake_new_year : json :=
  JDict [("properties", JDict [("time", JNum (Int 946684799000));
                               ("mag", JNum (Float (25 # 10)))])].

Definition features_with_gap : list json := [quake_2000; quake_no_time].
Definition document_with_gap : json :=
  JDict [("features", JList features_with_gap)].

Definition four_quakes : list json :=
  [quake_2000; quake_no_time; quake_2017; quake_2000].

(** A 300 response that carries a JSON body. *)
Definition response_300 : response :=
  mkresponse 300 (Some (JDict [("features", JList [])])).

Definition response_503 : response := mkresponse 503 None.

(** *** [print_summary] *)

Fixpoint insert_sorted (x : Z) (l : list Z) : list Z :=
  match l with
  | [] => [x]
  | y :: rest => if x <=? y then x :: l else y :: insert_sorted x rest
  end.

(** [sorted(...)] on a list of integers. *)
Definition sorted (l : list Z) : list Z := fold_right insert_sorted [] l.

(** [years[0]] and [years[-1]] *)
Definition first_item (l : list Z) : result Z :=
  match l with
  | [] => Raise IndexError
  | x :: _ => Ok x
  end.

Definition last_item (l : list Z) : result Z :=
  match l with
  | [] => Raise IndexError
  | x :: rest => Ok (last rest x)
  end.

(** [a / b] on two integers *)
Definition int_truediv (a b : nat) : result Q :=
  match b with
  | O => Raise ZeroDivisionError
  | S _ => Ok (inject_Z (Z.of_nat a) / inject_Z (Z.of_nat b))%Q
  end.

(** [max(d, key=d.get)] and [min(d, key=d.get)]: the first key, in
    iteration order, whose count is greatest (least); [ValueError] on
    an empty dictionary. *)
Fixpoint max_from (best : Z) (best_count : nat) (d : list (Z * nat)) : Z :=
  match d with
  | [] => best
  | (k, n) :: rest =>
      if (best_count <? n)%nat then max_from k n rest
      else max_from best best_count rest
  end.

Fixpoint min_from (best : Z) (best_count : nat) (d : list (Z * nat)) : Z :=
  match d with
  | [] => best
  | (k, n) :: rest =>
      if (n <? best_count)%nat then min_from k n rest
      else min_from best best_count rest
  end.

Definition max_by_count (d : list (Z * nat)) : result Z :=
  match d with
  | [] => Raise ValueError
  | (k, n) :: rest => Ok (max_from k n rest)
  end.

Definition min_by_count (d : list (Z * nat)) : result Z :=
  match d with
  | [] => Raise ValueError
  | (k, n) :: rest => Ok (min_from k n rest)
  end.

(** [d[k]] *)
Definition getitem {V : Type} (d : list (Z * V)) (k : Z) : result V :=
  match lookup d k with
  | Some v => Ok v
  | None => Raise KeyError
  end.

Definition print_summary (quakes_per_year : list (Z * nat))
    (avg_magnitudes : list (Z * Q)) : io unit :=
  let total_quakes := list_sum (values quakes_per_year) in
  let years := sorted (keys quakes_per_year) in
  _ <<- print (Text "=== EARTHQUAKE DATA SUMMARY ===") ;;
  first <<- lift (first_item years) ;;
  final <<- lift (last_item years) ;;
  _ <<- print (TimePeriod first final) ;;
  _ <<- print (TotalEarthquakes total_quakes) ;;
  _ <<- print (YearsCovered (List.length years)) ;;
  average <<- lift (int_truediv total_quakes (List.length years)) ;;
  _ <<- print (AveragePerYear average) ;;
  max_year <<- lift (max_by_count quakes_per_year) ;;
  min_year <<- lift (min_by_count quakes_per_year) ;;
  max_count <<- lift (getitem quakes_per_year max_year) ;;
  _ <<- print (MostActiveYear max_year max_count) ;;
  min_count <<- lift (getitem quakes_per_year min_year) ;;
  print (LeastActiveYear min_year min_count).

End PlotEarthquakes.

(** ** The script of [earthquakes.py] *)

Module EarthquakesScript.

(** [get_data] of [earthquakes.py]: whatever [requests.get] returns is
    parsed as JSON; there is no status check and no handler. *)
Definition get_data (requests_get : result PlotEarthquakes.response)
    : result json :=
  response <- requests_get ;;
  PlotEarthquakes.response_json response.

(** The two lines the script prints, kept as the values their
    f-strings interpolate. *)
Inductive printed : Type :=
  | Loaded (count : nat)
  | Strongest (max_location : json * json) (max_magnitude : json).

(** The statements at the end of the file: each f-string is evaluated
    before its line is printed, and lines printed before an exception
    stay printed. *)
Definition script (requests_get : result PlotEarthquakes.response)
    : list printed * result unit :=
  match get_data requests_get with
  | Raise e => ([], Raise e)
  | Ok data =>
      match Earthquakes.count_earthquakes data with
      | Raise e => ([], Raise e)
      | Ok count =>
          match Earthquakes.get_maximum data with
          | Raise e => ([Loaded count], Raise e)
          | Ok (max_magnitude, max_location) =>
              ([Loaded count; Strongest max_location max_magnitude], Ok tt)
          end
      end
  end.

(** A record as strong as [quake_strong], further east, and a
    document in which it comes after it. *)
Definition quake_strong_too : json :=
  JDict [("properties", JDict [("mag", JNum (Float (47 # 10)));
                               ("time", JNum (Int 1330000000000))]);
         ("geometry", JDict [("coordinates",
            JList [JNum (Float (12 # 10)); JNum (Float (521 # 10));
                   JNum (Int 5)])])].

Definition tied_quakes : json :=
  JDict [("features",
          JList [Earthquakes.quake_weak; Earthquakes.quake_strong;
                 quake_strong_too])].

(** A record whose magnitude was not determined. *)
Definition quake_unrated : json :=
  JDict [("properties", JDict [("mag", JNull);
                               ("time", JNum (Int 1330000000000))]);
         ("geometry", JDict [("coordinates",
            JList [JNum (Float (12 # 10)); JNum (Float (521 # 10));
                   JNum (Int 5)])])].

Definition unrated_quakes : json :=
  JDict [("features", JList [Earthquakes.quake_strong; quake_unrated])].

Definition strong_then_weak : json :=
  JDict [("features",
          JList [Earthquakes.quake_strong; Earthquakes.quake_weak])].

Definition strong_quake_only : json :=
  JDict [("features", JList [Earthquakes.quake_strong])].

Definition response_two_quakes : PlotEarthquakes.response :=
  PlotEarthquakes.mkresponse 404 (Some Earthquakes.two_quakes).

End EarthquakesScript.

(** ** The charts and the main block of [plot_earthquakes.py] *)

Module Plots.

Import PlotEarthquakes.

(** What a plotting function draws and saves: the titles, the ticks
    of the year axis, the points, the value written at each point and
    the file.  Colours, sizes and the [:.2f] rounding of the
    annotations are not modelled. *)
Record chart (V : Type) : Type := mkchart {
  title : string;
  xlabel : string;
  ylabel : string;
  xticks : list Z;
  xs : list Z;
  ys : list V;
  labels : list V;
  savefig : string
}.
Arguments mkchart {V}.
Arguments xs {V}.
Arguments ys {V}.
Arguments xticks {V}.
Arguments labels {V}.
Arguments savefig {V}.

(** The list comprehension [[d[year] for year in years]]. *)
Fixpoint getitems {V : Type} (d : list (Z * V)) (years : list Z)
    : result (list V) :=
  match years with
  | [] => Ok []
  | y :: rest =>
      v <- getitem d y ;;
      vs <- getitems d rest ;;
      Ok (v :: vs)
  end.

Definition plot_earthquake_frequency (quakes_per_year : list (Z * nat))
    : result (chart nat) :=
  let years := sorted (keys quakes_per_year) in
  counts <- getitems quakes_per_year years ;;
  Ok (mkchart "Earthquakes per Year (2000-2018)" "Year"
              "Number of Earthquakes" years years counts counts
              "earthquakes_per_year.png").

Definition plot_average_magnitude (avg_magnitudes : list (Z * Q))
    : result (chart Q) :=
  let years := sorted (keys avg_magnitudes) in
  magnitudes <- getitems avg_magnitudes years ;;
  Ok (mkchart "Average Earthquake Magnitude per Year" "Year"
              "Average Magnitude" years years magnitudes magnitudes
              "average_magnitude.png").

(** What a run of the program leaves behind, in order. *)
Inductive event : Type :=
  | Printed (l : line)
  | BarChart (c : chart nat)
  | LineChart (c : chart Q).

Definition run (A : Type) : Type := (list event * result A)%type.

Definition of_io {A : Type} (m : io A) : run A :=
  (map Printed (fst m), snd m).

Definition of_result {A : Type} (r : result A) : run A := ([], r).

Definition emit (e : event) : run unit := ([e], Ok tt).

Definition run_bind {A B : Type} (m : run A) (k : A -> run B) : run B :=
  match m with
  | (out, Ok a) => let (out', r) := k a in (out ++ out', r)
  | (out, Raise e) => (out, Raise e)
  end.

Notation "x <<= e ;; k" := (run_bind e (fun x => k))
  (at level 61, e at next level, right associativity).

Section Environment.

Variable utcoffset : Z -> Z.
Variable mktime : Z -> Z.
Variable randint : nat -> Z -> Z -> Z.
Variable uniform : nat -> Q -> Q -> Q.
Variable np_mean_floats : list Q -> Q.
Variable np_mean_other : list json -> result Q.
Variable json_error_is_request_exception : bool.

(** The block under [if __name__ == "__main__"]. *)
Definition main (requests_get : result response) : run unit :=
  data <<= of_io (get_data mktime randint uniform
                           json_error_is_request_exception requests_get) ;;
  earthquakes <<= of_result (subscript data "features") ;;
  quakes <<= of_result (iter earthquakes) ;;
  stats <<= of_result (get_annual_statistics utcoffset np_mean_floats
                                              np_mean_other quakes) ;;
  _ <<= of_io (print_summary (fst stats) (snd stats)) ;;
  bars <<= of_result (plot_earthquake_frequency (fst stats)) ;;
  _ <<= emit (BarChart bars) ;;
  curve <<= of_result (plot_average_magnitude (snd stats)) ;;
  emit (LineChart curve).

End Environment.

(** A generator that always draws the lower bound. *)
Definition randint_first (i : nat) (a b : Z) : Z := a.

(** A 200 response whose only record has no timestamp. *)
Definition response_no_time : response :=
  mkresponse 200 (Some (JDict [("features", JList [quake_no_time])])).

End Plots.

(** * Reasoning about results *)

(** A sequence of two steps succeeds only if both do. *)
Lemma bind_Ok {A B : Type} (r : result A) (k : A -> result B) (b : B) :
  bind r k = Ok b -> exists a, r = Ok a /\ k a = Ok b.
Proof.
  destruct r as [a | e]; simpl; intros H.
  - exists a. split; [reflexivity | exact H].
  - discriminate H.
Qed.

(** * Rounding to a double *)

Lemma Qpower2_Z (k : Z) : 0 <= k -> (Qpower 2 k == inject_Z (2 ^ k))%Q.
Proof. intros Hk. symmetry. apply (Zpower_Qpower 2 k Hk). Qed.

Lemma Qpower2_pos (k : Z) : (0 < Qpower 2 k)%Q.
Proof. apply Qpower_0_lt. reflexivity. Qed.

Lemma inject_Z_pow2_nonzero (k : Z) : 0 <= k -> ~ (inject_Z (2 ^ k) == 0)%Q.
Proof.
  intros Hk H. unfold Qeq in H. simpl in H. rewrite Z.mul_1_r in H.
  assert (Hp : 0 < 2 ^ k) by (apply Z.pow_pos_nonneg; lia).
  lia.
Qed.

Lemma binade_le (x : Q) :
  ~ (x == 0)%Q -> (Qpower 2 (binade x) <= Qabs x)%Q.
Proof.
  intros Hx. unfold binade.
  set (a := Z.log2 (Z.abs (Qnum x))).
  set (b := Z.log2 (Zpos (Qden x))).
  destruct (Qle_bool (Qpower 2 (a - b)) (Qabs x)) eqn:E.
  - apply Qle_bool_iff. exact E.
  - clear E.
    assert (Hn : 0 < Z.abs (Qnum x)).
    { destruct x as [n d]. unfold Qeq in Hx. simpl in *. lia. }
    assert (Ha : 2 ^ a <= Z.abs (Qnum x)) by (apply Z.log2_spec; exact Hn).
    assert (Hb : Zpos (Qden x) < 2 ^ (b + 1)).
    { replace (b + 1) with (Z.succ b) by lia. apply Z.log2_spec. reflexivity. }
    assert (Ha0 : 0 <= a) by apply Z.log2_nonneg.
    assert (Hb0 : 0 <= b) by apply Z.log2_nonneg.
    replace (a - b - 1) with (a - (b + 1)) by lia.
    rewrite Qpower_minus by discriminate.
    rewrite (Qpower2_Z a) by lia. rewrite (Qpower2_Z (b + 1)) by lia.
    apply Qle_shift_div_r.
    + rewrite <- (Qpower2_Z (b + 1)) by lia. apply Qpower2_pos.
    + destruct x as [n d]. unfold Qle. simpl in *.
      assert (0 < 2 ^ a) by (apply Z.pow_pos_nonneg; lia).
      nia.
Qed.

Lemma round_half_even_bounds (y : Q) :
  Qfloor y <= round_half_even y <= Qfloor y + 1.
Proof.
  unfold round_half_even.
  destruct (Qle_bool _ _); [destruct (Qle_bool _ _); [destruct (Z.even _) |] |];
    lia.
Qed.

Lemma round_half_even_integer (y : Q) (n : Z) :
  (y == inject_Z n)%Q -> round_half_even y = n.
Proof.
  intros Hy. unfold round_half_even.
  assert (Hf : Qfloor y = n) by (rewrite Hy; apply Qfloor_Z).
  rewrite Hf.
  assert (H1 : Qle_bool (y - inject_Z n) (1 # 2) = true).
  { apply Qle_bool_iff. rewrite Hy. lra. }
  rewrite H1.
  destruct (Qle_bool (1 # 2) (y - inject_Z n)) eqn:H2; [| reflexivity].
  apply Qle_bool_iff in H2. rewrite Hy in H2. lra.
Qed.

(** A whole number of magnitude at most [2^53] is a double. *)
Lemma round_binary64_integer (x : Q) (m : Z) :
  (x == inject_Z m)%Q -> Z.abs m <= 2 ^ 53 ->
  (round_binary64 x == inject_Z m)%Q.
Proof.
  intros Hx Hm. unfold round_binary64.
  destruct (Qeq_bool x 0) eqn:E0.
  - apply Qeq_bool_iff in E0. rewrite <- Hx, E0. reflexivity.
  - assert (Hx0 : ~ (x == 0)%Q).
    { intros H. apply Qeq_bool_iff in H. congruence. }
    pose proof (binade_le x Hx0) as Hle.
    assert (Habs : (Qabs x == inject_Z (Z.abs m))%Q).
    { rewrite Hx. unfold Qabs, inject_Z. reflexivity. }
    rewrite Habs in Hle.
    set (e := Z.max (binade x) (-1022)).
    assert (He : e <= 53 /\ (e = 53 -> Z.abs m = 2 ^ 53)).
    { destruct (Z.le_gt_cases (binade x) 52) as [H52 | H52]; [lia |].
      assert (H0 : 0 <= binade x) by lia.
      rewrite (Qpower2_Z _ H0) in Hle. rewrite <- Zle_Qle in Hle.
      assert (Hpow : 2 ^ 53 <= 2 ^ binade x)
        by (apply Z.pow_le_mono_r; lia).
      assert (binade x = 53).
      { destruct (Z.eq_dec (binade x) 53) as [| Hne]; [assumption |].
        assert (Hpow' : 2 ^ 54 <= 2 ^ binade x)
          by (apply Z.pow_le_mono_r; lia).
        assert (2 ^ 53 < 2 ^ 54) by reflexivity. lia. }
      lia. }
    destruct He as [He53 Heq].
    destruct (Z.eq_dec e 53) as [E | E].
    + rewrite E. change (53 - 52) with 1.
      specialize (Heq E).
      assert (Hm2 : m = 2 * (m / 2)).
      { destruct (Z.abs_spec m) as [[_ Hp] | [_ Hp]]; rewrite Hp in Heq.
        - rewrite Heq. reflexivity.
        - assert (Hmm : m = - 2 ^ 53) by (rewrite <- Heq; ring).
          rewrite Hmm. reflexivity. }
      rewrite (round_half_even_integer _ (m / 2)).
      * rewrite Hm2 at 2. rewrite inject_Z_mult. change (2 ^ 1)%Q with 2%Q.
        change (inject_Z 2) with 2%Q. ring.
      * rewrite Hx. rewrite Hm2 at 1. rewrite inject_Z_mult.
        change (2 ^ 1)%Q with 2%Q. change (inject_Z 2) with 2%Q. field.
    + assert (Hk : 0 <= 52 - e) by lia.
      replace (e - 52) with (- (52 - e)) by lia.
      rewrite (round_half_even_integer _ (m * 2 ^ (52 - e))).
      * rewrite Qpower_opp, (Qpower2_Z _ Hk), inject_Z_mult.
        field. apply inject_Z_pow2_nonzero. exact Hk.
      * rewrite Hx, Qpower_opp, (Qpower2_Z _ Hk), inject_Z_mult.
        field. apply inject_Z_pow2_nonzero. exact Hk.
Qed.

(** A quotient beyond the largest double stays, once rounded, beyond
    the range of a [time_t]. *)
Lemma round_binary64_overflow (x : Q) :
  float_overflow x = true ->
  Qfloor (round_binary64 x) < TIME_T_MIN \/
  TIME_T_MAX < Qfloor (round_binary64 x).
Proof.
  unfold float_overflow. intros H. apply Qle_bool_iff in H.
  assert (Hbig : (inject_Z (2 ^ 65) <= float_limit)%Q).
  { unfold float_limit. rewrite <- Zle_Qle. vm_compute. discriminate. }
  assert (Habs : (inject_Z (2 ^ 65) <= Qabs x)%Q) by (eapply Qle_trans; eassumption).
  clear H Hbig.
  assert (Hx0 : ~ (x == 0)%Q).
  { intros E. rewrite E in Habs. vm_compute in Habs. apply Habs. reflexivity. }
  unfold round_binary64.
  destruct (Qeq_bool x 0) eqn:E0.
  { apply Qeq_bool_iff in E0. contradiction. }
  set (e := Z.max (binade x) (-1022)).
  set (q := Qpower 2 (e - 52)).
  assert (Hq0 : (0 < q)%Q) by apply Qpower2_pos.
  assert (Hq : (q <= Qabs x * (1 # 2))%Q).
  { unfold q, e. destruct (Z.max_spec (binade x) (-1022)) as [[_ ->] | [_ ->]].
    - apply Qle_trans with 1%Q.
      + change 1%Q with (Qpower 2 0). apply Qpower_le_compat_l; [lia | discriminate].
      + assert (H65 : (2 <= inject_Z (2 ^ 65))%Q).
        { change 2%Q with (inject_Z 2). rewrite <- Zle_Qle. vm_compute. discriminate. }
        lra.
    - pose proof (binade_le x Hx0) as Hle.
      apply Qle_trans with (Qpower 2 (binade x) * (1 # 2))%Q; [| lra].
      apply Qle_trans with (Qpower 2 (binade x - 1)).
      + apply Qpower_le_compat_l; [lia | discriminate].
      + rewrite Qpower_minus by discriminate. change (2 ^ 1)%Q with 2%Q.
        unfold Qdiv. change (/ 2)%Q with (1 # 2)%Q. apply Qle_refl. }
  set (y := (x / q)%Q).
  assert (Hy : (x == y * q)%Q).
  { unfold y. field. intros E. rewrite E in Hq0. apply (Qlt_irrefl _ Hq0). }
  pose proof (round_half_even_bounds y) as [Hlo Hhi].
  pose proof (Qfloor_le y) as Hfl. pose proof (Qlt_floor y) as Hfu.
  set (r := round_half_even y) in *.
  rewrite Zle_Qle in Hlo, Hhi. rewrite inject_Z_plus in Hhi, Hfu.
  change (inject_Z 1) with 1%Q in *.
  assert (H64 : (inject_Z (2 ^ 65) * (1 # 2) == inject_Z (2 ^ 64))%Q)
    by (vm_compute; reflexivity).
  destruct (Qlt_le_dec x 0) as [Hneg | Hpos].
  - left. rewrite Qabs_neg in Habs, Hq by lra.
    assert (Hr : (inject_Z r * q <= - inject_Z (2 ^ 64))%Q).
    { assert (H1 : (inject_Z r * q <= (y + 1) * q)%Q).
      { apply Qmult_le_compat_r; lra. }
      assert (H2 : ((y + 1) * q == x + q)%Q) by (rewrite Hy; ring).
      lra. }
    apply Qfloor_resp_le in Hr.
    change (Qfloor (- inject_Z (2 ^ 64))) with (- 2 ^ 64) in Hr.
    assert (- 2 ^ 64 < TIME_T_MIN) by reflexivity. lia.
  - right. rewrite Qabs_pos in Habs, Hq by lra.
    assert (Hr : (inject_Z (2 ^ 64) <= inject_Z r * q)%Q).
    { assert (H1 : ((y - 1) * q <= inject_Z r * q)%Q).
      { apply Qmult_le_compat_r; lra. }
      assert (H2 : ((y - 1) * q == x - q)%Q) by (rewrite Hy; ring).
      lra. }
    apply Qfloor_resp_le in Hr. rewrite Qfloor_Z in Hr.
    assert (TIME_T_MAX < 2 ^ 64) by reflexivity. lia.
Qed.

(** * Properties of [earthquakes.py] *)

Section Maximum.

Import Earthquakes.

Lemma gt_Ok (a b : json) (g : bool) :
  gt a b = Ok g ->
  exists x y, to_Q a = Some x /\ to_Q b = Some y /\
              (if g then (y < x)%Q else (x <= y)%Q).
Proof.
  unfold gt. destruct (to_Q a) as [x |]; [| discriminate].
  destruct (to_Q b) as [y |]; [| discriminate].
  intros H. injection H as <-. exists x, y. repeat split.
  destruct (Qle_bool x y) eqn:E; simpl.
  - apply Qle_bool_iff. exact E.
  - apply Qnot_le_lt. intros L. apply Qle_bool_iff in L. congruence.
Qed.

(** What the loop of [get_maximum] establishes, from any numeric
    starting value [m0]: the final [max_magnitude] is a number that
    bounds the start and every record, and the final pair is either
    the starting one or a record of the list with a strictly greater
    magnitude. *)
Lemma get_maximum_loop_spec (features : list json) :
  forall (m0 e0 m e : json) (q0 : Q),
    to_Q m0 = Some q0 ->
    get_maximum_loop features m0 e0 = Ok (m, e) ->
    exists q, to_Q m = Some q /\ (q0 <= q)%Q /\
      (forall e', In e' features ->
         exists m' q', has_magnitude e' m' q' /\ (q' <= q)%Q) /\
      ((m = m0 /\ e = e0) \/
       (In e features /\ get_magnitude e = Ok m /\ (q0 < q)%Q)).
Proof.
  induction features as [| earthquake rest IH]; intros m0 e0 m e q0 Hq0 Hloop.
  - simpl in Hloop. injection Hloop as <- <-.
    exists q0. repeat split; [exact Hq0 | apply Qle_refl | | left; auto].
    intros e' [].
  - simpl in Hloop.
    apply bind_Ok in Hloop as (magnitude & Hmag & Hloop).
    apply bind_Ok in Hloop as (greater & Hgt & Hloop).
    apply gt_Ok in Hgt as (x & y & Hx & Hy & Hcmp).
    rewrite Hq0 in Hy. injection Hy as <-.
    destruct greater.
    + destruct (IH _ _ _ _ x Hx Hloop) as (q & Hq & Hle & Hall & Hsel).
      exists q. split; [exact Hq |]. split.
      { apply Qlt_le_weak. eapply Qlt_le_trans; eassumption. }
      split.
      { intros e' [<- | Hin].
        - exists magnitude, x. split; [split; assumption | exact Hle].
        - apply Hall. exact Hin. }
      right. destruct Hsel as [[-> ->] | (Hin & Hm & Hlt)].
      * split; [left; reflexivity |]. split; [exact Hmag |].
        rewrite Hx in Hq. injection Hq as <-. exact Hcmp.
      * split; [right; exact Hin |]. split; [exact Hm |].
        eapply Qlt_trans; eassumption.
    + destruct (IH _ _ _ _ q0 Hq0 Hloop) as (q & Hq & Hle & Hall & Hsel).
      exists q. split; [exact Hq |]. split; [exact Hle |]. split.
      { intros e' [<- | Hin].
        - exists magnitude, x. split; [split; assumption |].
          eapply Qle_trans; eassumption.
        - apply Hall. exact Hin. }
      destruct Hsel as [[-> ->] | (Hin & Hm & Hlt)].
      * left. auto.
      * right. split; [right; exact Hin |]. split; assumption.
Qed.

(** [max_magnitude] is a number throughout the loop, which is what
    [gt] relies on. *)
Lemma get_maximum_loop_number (features : list json) (m0 e0 m e : json) :
  is_number m0 = true ->
  get_maximum_loop features m0 e0 = Ok (m, e) ->
  is_number m = true.
Proof.
  unfold is_number. destruct (to_Q m0) as [q0 |] eqn:Hq0; [| discriminate].
  intros _ Hloop.
  destruct (get_maximum_loop_spec features _ _ _ _ q0 Hq0 Hloop)
    as (q & Hq & _).
  rewrite Hq. reflexivity.
Qed.

(** [get_location(None)] *)
Lemma get_location_None : get_location JNull = Raise TypeError.
Proof. reflexivity. Qed.

(** Whenever [get_maximum] returns, it returns a record of the
    iterated sequence: its magnitude, which is above the sentinel and
    bounds every magnitude, and its location. *)
Lemma get_maximum_inv (data m : json) (loc : json * json) :
  get_maximum data = Ok (m, loc) ->
  exists features earthquakes e q,
    subscript data "features" = Ok features /\
    iter features = Ok earthquakes /\
    In e earthquakes /\ has_magnitude e m q /\ (-1 < q)%Q /\
    get_location e = Ok loc /\
    (forall e', In e' earthquakes ->
       exists m' q', has_magnitude e' m' q' /\ (q' <= q)%Q).
Proof.
  unfold get_maximum. intros H.
  apply bind_Ok in H as (features & Hf & H).
  apply bind_Ok in H as (earthquakes & Hi & H).
  apply bind_Ok in H as ([mm me] & Hloop & H).
  apply bind_Ok in H as (max_location & Hloc & H).
  injection H as <- <-.
  destruct (get_maximum_loop_spec earthquakes (JNum (Int (-1))) JNull mm me
              (inject_Z (-1)) eq_refl Hloop) as (q & Hq & Hle & Hall & Hsel).
  destruct Hsel as [[-> ->] | (Hin & Hm & Hlt)].
  - rewrite get_location_None in Hloc. discriminate Hloc.
  - exists features, earthquakes, me, q.
    repeat split; assumption.
Qed.

(** From a numeric start that no record exceeds, the loop returns its
    starting pair. *)
Lemma get_maximum_loop_none_greater (features : list json) :
  forall (m0 e0 : json) (q0 : Q),
    to_Q m0 = Some q0 ->
    (forall e, In e features ->
       exists m q, has_magnitude e m q /\ (q <= q0)%Q) ->
    get_maximum_loop features m0 e0 = Ok (m0, e0).
Proof.
  induction features as [| earthquake rest IH]; intros m0 e0 q0 Hq0 Hall.
  - reflexivity.
  - destruct (Hall earthquake (or_introl eq_refl)) as (m & q & [Hm Hq] & Hle).
    simpl. rewrite Hm. simpl. unfold gt. rewrite Hq, Hq0.
    apply Qle_bool_iff in Hle. rewrite Hle. simpl.
    apply IH with (q0 := q0); [exact Hq0 |].
    intros e Hin. apply Hall. right. exact Hin.
Qed.

(** On records that all carry a numeric magnitude the loop returns. *)
Lemma get_maximum_loop_total (features : list json) :
  forall (m0 e0 : json) (q0 : Q),
    to_Q m0 = Some q0 ->
    (forall e, In e features -> exists m q, has_magnitude e m q) ->
    exists m e, get_maximum_loop features m0 e0 = Ok (m, e).
Proof.
  induction features as [| earthquake rest IH]; intros m0 e0 q0 Hq0 Hall.
  - exists m0, e0. reflexivity.
  - destruct (Hall earthquake (or_introl eq_refl)) as (m & q & [Hm Hq]).
    simpl. rewrite Hm. simpl. unfold gt. rewrite Hq, Hq0. simpl.
    destruct (Qle_bool q q0).
    + apply IH with (q0 := q0); [exact Hq0 |].
      intros e Hin. apply Hall. right. exact Hin.
    + apply IH with (q0 := q); [exact Hq |].
      intros e Hin. apply Hall. right. exact Hin.
Qed.

(** The precondition is also sufficient on well-formed input:
    [get_maximum] returns when every record has a numeric magnitude
    and a location and some magnitude exceeds the sentinel. *)
Lemma get_maximum_total (data : json) (features : list json) :
  subscript data "features" = Ok (JList features) ->
  (forall e, In e features ->
     (exists m q, has_magnitude e m q) /\ (exists loc, get_location e = Ok loc)) ->
  (exists e m q, In e features /\ has_magnitude e m q /\ (-1 < q)%Q) ->
  exists m loc, get_maximum data = Ok (m, loc).
Proof.
  intros Hf Hwf (e1 & m1 & q1 & Hin1 & [Hm1 Hq1] & Hgt1).
  destruct (get_maximum_loop_total features (JNum (Int (-1))) JNull
              (inject_Z (-1)) eq_refl) as (m & e & Hloop).
  { intros e Hin. apply Hwf. exact Hin. }
  destruct (get_maximum_loop_spec features (JNum (Int (-1))) JNull m e
              (inject_Z (-1)) eq_refl Hloop) as (q & Hq & Hle & Hall & Hsel).
  assert (Hin : In e features).
  { destruct Hsel as [[-> ->] | (Hin & _)]; [| exact Hin].
    injection Hq as <-.
    destruct (Hall e1 Hin1) as (m' & q' & [Hm' Hq'] & Hle').
    rewrite Hm1 in Hm'. injection Hm' as <-.
    rewrite Hq1 in Hq'. injection Hq' as <-.
    exfalso. apply (Qlt_not_le _ _ Hgt1). exact Hle'. }
  destruct (Hwf e Hin) as (_ & loc & Hloc).
  exists m, loc. unfold get_maximum. rewrite Hf. simpl.
  rewrite Hloop. simpl. rewrite Hloc. reflexivity.
Qed.

(** ** The selected record is a maximum *)



(** ** Partiality of [get_maximum] *)

(** C9, as amended.  On a document with a [features] array:
    when every record's magnitude is at most -1 (in particular on an
    empty array) the loop ends with [max_earthquake] still [None] and
    [get_location(None)] raises [TypeError]; and whenever
    [get_maximum] returns, some record has the returned magnitude and
    that magnitude is strictly greater than -1, so that the sentinel
    itself is never returned. *)
Theorem get_maximum_partial (data : json) (features : list json) :
  subscript data "features" = Ok (JList features) ->
  ((forall e, In e features ->
      exists m q, has_magnitude e m q /\ (q <= -1)%Q) ->
   get_maximum_loop features (JNum (Int (-1))) JNull
     = Ok (JNum (Int (-1)), JNull) /\
   get_maximum data = Raise TypeError) /\
  (forall m loc, get_maximum data = Ok (m, loc) ->
     exists e q, In e features /\ has_magnitude e m q /\ (-1 < q)%Q).
Proof.
  intros Hf. split.
  - intros Hall.
    assert (Hloop := get_maximum_loop_none_greater features
                       (JNum (Int (-1))) JNull (inject_Z (-1)) eq_refl Hall).
    split; [exact Hloop |].
    unfold get_maximum. rewrite Hf. simpl. rewrite Hloop. reflexivity.
  - intros m loc Hmax.
    apply get_maximum_inv in Hmax
      as (fs & earthquakes & e & q & Hf' & Hi & Hin & Hm & Hgt & _).
    rewrite Hf in Hf'. injection Hf' as <-.
    simpl in Hi. injection Hi as <-.
    exists e, q. repeat split; try assumption; apply Hm.
Qed.

Lemma get_maximum_partial_witness :
  get_maximum no_quakes = Raise TypeError.
Proof.
  apply (get_maximum_partial no_quakes [] eq_refl).
  intros e [].
Defined.

(** The last clause of C9 as first stated does not hold: no document
    makes [get_maximum] return a magnitude equal to the sentinel -1,
    whether or not a record carries it. *)
Lemma get_maximum_never_returns_sentinel :
  ~ exists (data m : json) (q : Q) (loc : json * json),
      get_maximum data = Ok (m, loc) /\ to_Q m = Some q /\ (q == -1)%Q.
Proof.
  intros (data & m & q & loc & Hmax & Hq & Heq).
  apply get_maximum_inv in Hmax
    as (_ & _ & _ & q' & _ & _ & _ & [_ Hq'] & Hgt & _).
  rewrite Hq in Hq'. injection Hq' as <-.
  rewrite Heq in Hgt. exact (Qlt_irrefl _ Hgt).
Qed.

End Maximum.

(** * Properties of [plot_earthquakes.py] *)

Section Statistics.

Import PlotEarthquakes.

Variable utcoffset : Z -> Z.
Variable np_mean_floats : list Q -> Q.
Variable np_mean_other : list json -> result Q.


Lemma truediv_Ok (a : json) (b : Z) (x : Q) :
  truediv a b = Ok x ->
  exists q, to_Q a = Some q /\ x = round_binary64 (q / inject_Z b).
Proof.
  unfold truediv.
  destruct a as [| c | [z | q] | s | l | d]; simpl;
    try discriminate;
    try (destruct (float_overflow _); [discriminate |]);
    intros H; injection H as <-; eexists; split; reflexivity.
Qed.

Lemma truediv_error (a : json) (b : Z) (e : exn) :
  truediv a b = Raise e ->
  (e = TypeError /\ to_Q a = None) \/
  (e = OverflowError /\ exists q, to_Q a = Some q).
Proof.
  unfold truediv.
  destruct a as [| c | [z | q] | s | l | d]; simpl;
    try discriminate;
    try (intros H; injection H as <-; left; split; reflexivity);
    (destruct (float_overflow _); [| discriminate];
     intros H; injection H as <-; right; split; [reflexivity |];
     eexists; reflexivity).
Qed.

Lemma lookup_defaultdict_update {V : Type} (default : V) (f : V -> V)
    (d : list (Z * V)) (k y : Z) :
  lookup (defaultdict_update default f d k) y =
    if k =? y then Some (f (get_default default (lookup d k)))
    else lookup d y.
Proof.
  induction d as [| [k' v] rest IH]; simpl.
  - reflexivity.
  - destruct (Z.eqb_spec k' k) as [-> | Hk]; simpl.
    + destruct (Z.eqb_spec k y); reflexivity.
    + rewrite IH.
      destruct (Z.eqb_spec k y) as [E | Hy].
      * subst y. destruct (Z.eqb_spec k' k); [contradiction | reflexivity].
      * reflexivity.
Qed.

Lemma list_sum_values_increment (d : list (Z * nat)) (k : Z) :
  list_sum (values (defaultdict_update 0%nat S d k))
    = S (list_sum (values d)).
Proof.
  unfold values.
  induction d as [| [k' v] rest IH]; simpl.
  - reflexivity.
  - destruct (k' =? k); simpl.
    + reflexivity.
    + rewrite IH. lia.
Qed.

(** The three ways a pass of the loop can go. *)
Lemma record_quake_counted (st : statistics) (quake : json) (y : Z) (m : json) :
  read_quake utcoffset quake = Ok (y, m) ->
  record_quake utcoffset st quake =
    Ok (defaultdict_update 0%nat S (fst st) y,
        defaultdict_update [] (fun l => l ++ [m]) (snd st) y).
Proof.
  intros H. destruct st as [qpy mpy]. unfold record_quake. rewrite H.
  reflexivity.
Qed.

Lemma record_quake_skipped (st : statistics) (quake : json) :
  skipped utcoffset quake = true ->
  record_quake utcoffset st quake = Ok st.
Proof.
  unfold skipped, record_quake. destruct st as [qpy mpy].
  destruct (read_quake utcoffset quake) as [[y m] | e].
  - discriminate.
  - intros ->. reflexivity.
Qed.

Lemma record_quake_Ok (st st' : statistics) (quake : json) :
  record_quake utcoffset st quake = Ok st' ->
  (exists y m, read_quake utcoffset quake = Ok (y, m)) \/
  (skipped utcoffset quake = true /\ counted utcoffset quake = false /\
   st' = st).
Proof.
  unfold record_quake, skipped, counted. destruct st as [qpy mpy].
  destruct (read_quake utcoffset quake) as [[y m] | e].
  - intros _. left. exists y, m. reflexivity.
  - destruct (is_KeyError_or_TypeError e); [| discriminate].
    intros H. injection H as <-. right. auto.
Qed.

(** Each counted record adds one to the sum of the counts, a skipped
    record nothing. *)
Lemma record_quakes_sum (earthquakes : list json) :
  forall st st' : statistics,
    record_quakes utcoffset st earthquakes = Ok st' ->
    list_sum (values (fst st')) =
      (list_sum (values (fst st))
       + List.length (filter (counted utcoffset) earthquakes))%nat.
Proof.
  induction earthquakes as [| quake rest IH]; intros st st' H; simpl in H.
  - injection H as <-. simpl. lia.
  - apply bind_Ok in H as (st1 & Hstep & Hrest).
    apply IH in Hrest. rewrite Hrest. simpl.
    destruct (record_quake_Ok _ _ _ Hstep) as [(y & m & Hread) | (_ & Hc & ->)].
    + rewrite (record_quake_counted st _ _ _ Hread) in Hstep.
      injection Hstep as <-. simpl.
      rewrite list_sum_values_increment.
      unfold counted at 2. rewrite Hread. simpl. lia.
    + rewrite Hc. reflexivity.
Qed.

(** What the loop leaves under each year: the earlier entry extended
    by the counted records of that year, and no entry where there was
    none and no such record came. *)
Lemma record_quakes_lookup (earthquakes : list json) :
  forall (st st' : statistics) (y : Z),
    record_quakes utcoffset st earthquakes = Ok st' ->
    let ms := magnitudes_of_year utcoffset y earthquakes in
    lookup (fst st') y =
      match ms with
      | [] => lookup (fst st) y
      | _ => Some (get_default 0%nat (lookup (fst st) y) + List.length ms)%nat
      end /\
    lookup (snd st') y =
      match ms with
      | [] => lookup (snd st) y
      | _ => Some (get_default [] (lookup (snd st) y) ++ ms)
      end.
Proof.
  induction earthquakes as [| quake rest IH]; intros st st' y H; simpl in H.
  - injection H as <-. simpl. split; reflexivity.
  - apply bind_Ok in H as (st1 & Hstep & Hrest).
    specialize (IH st1 st' y Hrest). simpl in IH. destruct IH as [IHq IHm].
    destruct (record_quake_Ok _ _ _ Hstep) as [(y' & m & Hread) | (_ & Hc & ->)].
    + rewrite (record_quake_counted st _ _ _ Hread) in Hstep.
      injection Hstep as <-. simpl in IHq, IHm |- *.
      rewrite Hread.
      rewrite lookup_defaultdict_update in IHq.
      rewrite lookup_defaultdict_update in IHm.
      destruct (Z.eqb_spec y' y) as [-> | Hy].
      * rewrite IHq, IHm.
        destruct (magnitudes_of_year utcoffset y rest) as [| m1 ms1]; simpl.
        -- split; [f_equal; lia | reflexivity].
        -- split; [f_equal; lia |].
           rewrite <- app_assoc. reflexivity.
      * split; assumption.
    + unfold counted in Hc. simpl.
      destruct (read_quake utcoffset quake) as [[y' m] | e]; [discriminate |].
      split; assumption.
Qed.

Lemma average_magnitudes_lookup (mpy : list (Z * list json)) :
  forall (avg : list (Z * Q)) (y : Z),
    average_magnitudes np_mean_floats np_mean_other mpy = Ok avg ->
    match lookup mpy y with
    | None => lookup avg y = None
    | Some ms =>
        exists a, lookup avg y = Some a /\ np_mean np_mean_floats np_mean_other ms = Ok a
    end.
Proof.
  induction mpy as [| [k ms] rest IH]; intros avg y H; simpl in H.
  - injection H as <-. reflexivity.
  - apply bind_Ok in H as (mean & Hmean & H).
    apply bind_Ok in H as (avgs & Havgs & H).
    injection H as <-. simpl.
    destruct (k =? y).
    + exists mean. split; [reflexivity | exact Hmean].
    + apply IH. exact Havgs.
Qed.

(** [np.mean] of a non-empty list of doubles is their mean. *)
Lemma np_mean_doubles (ms : list json) :
  ms <> [] ->
  forallb is_double ms = true ->
  np_mean np_mean_floats np_mean_other ms = Ok (float64_mean np_mean_floats ms).
Proof.
  intros Hne Hnum. unfold np_mean.
  destruct ms as [| m ms']; [contradiction |].
  rewrite Hnum. reflexivity.
Qed.

Lemma length_magnitudes_of_year (y : Z) (earthquakes : list json) :
  List.length (magnitudes_of_year utcoffset y earthquakes) =
  List.length (filter (in_year utcoffset y) earthquakes).
Proof.
  induction earthquakes as [| quake rest IH]; simpl.
  - reflexivity.
  - unfold in_year at 1.
    destruct (read_quake utcoffset quake) as [[y' m] | e].
    + destruct (y' =? y); simpl; [rewrite IH |]; auto.
    + exact IH.
Qed.

Lemma In_magnitudes_of_year (y : Z) (m : json) (earthquakes : list json) :
  In m (magnitudes_of_year utcoffset y earthquakes) <->
  exists quake, In quake earthquakes /\ read_quake utcoffset quake = Ok (y, m).
Proof.
  induction earthquakes as [| quake rest IH]; simpl.
  - split; [intros [] | intros (q & [] & _)].
  - split.
    + destruct (read_quake utcoffset quake) as [[y' m'] | e] eqn:Hread.
      * destruct (Z.eqb_spec y' y) as [-> | Hy].
        -- intros [<- | Hin].
           ++ exists quake. auto.
           ++ apply IH in Hin as (q & Hq & Hr). exists q. auto.
        -- intros Hin. apply IH in Hin as (q & Hq & Hr). exists q. auto.
      * intros Hin. apply IH in Hin as (q & Hq & Hr). exists q. auto.
    + intros (q & [<- | Hq] & Hr).
      * rewrite Hr. rewrite Z.eqb_refl. left. reflexivity.
      * assert (Hin : In m (magnitudes_of_year utcoffset y rest)).
        { apply IH. exists q. auto. }
        destruct (read_quake utcoffset quake) as [[y' m'] | e]; [| exact Hin].
        destruct (y' =? y); [right |]; exact Hin.
Qed.

(** [get_annual_statistics] returns when its loop and then its
    comprehension do. *)
Lemma get_annual_statistics_inv (earthquakes : list json)
    (qpy : list (Z * nat)) (avg : list (Z * Q)) :
  get_annual_statistics utcoffset np_mean_floats np_mean_other earthquakes = Ok (qpy, avg) ->
  exists mpy,
    record_quakes utcoffset ([], []) earthquakes = Ok (qpy, mpy) /\
    average_magnitudes np_mean_floats np_mean_other mpy = Ok avg.
Proof.
  unfold get_annual_statistics. intros H.
  apply bind_Ok in H as ([qpy' mpy] & Hloop & H).
  apply bind_Ok in H as (avgs & Havg & H).
  injection H as <- <-. exists mpy. split; assumption.
Qed.

Lemma filter_length_forallb {A : Type} (f : A -> bool) (l : list A) :
  List.length (filter f l) = List.length l <-> forallb f l = true.
Proof.
  induction l as [| a l IH]; simpl.
  - split; reflexivity.
  - destruct (f a); simpl.
    + rewrite <- IH. split; lia.
    + pose proof (filter_length_le f l). split; [lia | discriminate].
Qed.

(** ** The sum of the yearly counts *)

(** C1, as amended.  When [get_annual_statistics] returns on the
    [features] array of a document, the sum of its per-year counts is
    the number of records the loop counted, those on which neither
    [get_year] nor [get_magnitude] raised; it never exceeds the total
    that [count_earthquakes] reports and equals it exactly when no
    record was skipped. *)
Theorem sum_of_counts_is_counted_records
    (data : json) (earthquakes : list json)
    (qpy : list (Z * nat)) (avg : list (Z * Q)) :
  subscript data "features" = Ok (JList earthquakes) ->
  get_annual_statistics utcoffset np_mean_floats np_mean_other earthquakes = Ok (qpy, avg) ->
  list_sum (values qpy)
    = List.length (filter (counted utcoffset) earthquakes) /\
  exists total,
    Earthquakes.count_earthquakes data = Ok total /\
    (list_sum (values qpy) <= total)%nat /\
    (list_sum (values qpy) = total <->
     forallb (counted utcoffset) earthquakes = true).
Proof.
  intros Hf H.
  apply get_annual_statistics_inv in H as (mpy & Hloop & Havg).
  apply record_quakes_sum in Hloop. simpl in Hloop.
  split; [exact Hloop |].
  exists (List.length earthquakes).
  unfold Earthquakes.count_earthquakes. rewrite Hf. simpl.
  split; [reflexivity |]. rewrite Hloop. split.
  - apply filter_length_le.
  - apply filter_length_forallb.
Qed.

(** C1 as first stated fails on a list with a skipped record: of the
    two records of [features_with_gap] the one without
    [properties.time] raises [KeyError] in [get_year] and is skipped,
    so the counts sum to 1 while the array holds 2 records. *)
Lemma sum_of_counts_below_total :
  exists qpy avg,
    get_annual_statistics UTC binary64_mean np_mean_ragged features_with_gap
      = Ok (qpy, avg) /\
    list_sum (values qpy) = 1%nat /\
    Earthquakes.count_earthquakes document_with_gap = Ok 2%nat.
Proof.
  eexists. eexists. split; [vm_compute; reflexivity |].
  split; reflexivity.
Qed.

(** ** Grouping by year *)

(** A year is present in the counts exactly when some record was
    counted under it. *)
Lemma year_present_iff (earthquakes : list json)
    (qpy : list (Z * nat)) (avg : list (Z * Q)) (y : Z) :
  get_annual_statistics utcoffset np_mean_floats np_mean_other earthquakes = Ok (qpy, avg) ->
  (exists n, lookup qpy y = Some n) <->
  (exists quake m, In quake earthquakes /\
                   read_quake utcoffset quake = Ok (y, m)).
Proof.
  intros H.
  apply get_annual_statistics_inv in H as (mpy & Hloop & Havg).
  destruct (record_quakes_lookup _ _ _ y Hloop) as [Hq _].
  simpl in Hq. rewrite Hq.
  destruct (magnitudes_of_year utcoffset y earthquakes) as [| m ms] eqn:Hms.
  - split; [intros [n Hn]; discriminate |].
    intros (quake & m & Hin & Hread).
    assert (Hm : In m (magnitudes_of_year utcoffset y earthquakes)).
    { apply In_magnitudes_of_year. exists quake. auto. }
    rewrite Hms in Hm. destruct Hm.
  - split; [intros _ | intros _; eexists; reflexivity].
    assert (Hm : In m (magnitudes_of_year utcoffset y earthquakes)).
    { rewrite Hms. left. reflexivity. }
    apply In_magnitudes_of_year in Hm as (quake & Hin & Hread).
    exists quake, m. auto.
Qed.

(** ** Skipped records *)




(** A record whose year can be derived and that has any
    [properties.mag] at all, a number or not, is counted. *)
Lemma any_magnitude_counted (quake m : json) (y : Z) :
  get_year utcoffset quake = Ok y -> get_magnitude quake = Ok m ->
  counted utcoffset quake = true.
Proof.
  unfold counted, read_quake. intros -> ->. reflexivity.
Qed.

(** Skipped records leave the loop's state, and so the result,
    unchanged. *)
Lemma record_quakes_without_skipped (earthquakes : list json) :
  forall st : statistics,
    record_quakes utcoffset st earthquakes =
    record_quakes utcoffset st
      (filter (fun quake => negb (skipped utcoffset quake)) earthquakes).
Proof.
  induction earthquakes as [| quake rest IH]; intros st; simpl.
  - reflexivity.
  - destruct (skipped utcoffset quake) eqn:Hs; simpl.
    + rewrite (record_quake_skipped st quake Hs). simpl. apply IH.
    + destruct (record_quake utcoffset st quake); simpl; [apply IH | reflexivity].
Qed.

Lemma get_annual_statistics_without_skipped (earthquakes : list json) :
  get_annual_statistics utcoffset np_mean_floats np_mean_other earthquakes =
  get_annual_statistics utcoffset np_mean_floats np_mean_other
    (filter (fun quake => negb (skipped utcoffset quake)) earthquakes).
Proof.
  unfold get_annual_statistics.
  rewrite <- record_quakes_without_skipped. reflexivity.
Qed.

(** On an empty list, or one whose records are all skipped, the
    result is two empty dictionaries. *)
Lemma get_annual_statistics_all_skipped (earthquakes : list json) :
  forallb (skipped utcoffset) earthquakes = true ->
  get_annual_statistics utcoffset np_mean_floats np_mean_other earthquakes = Ok ([], []).
Proof.
  intros H. rewrite get_annual_statistics_without_skipped.
  replace (filter _ earthquakes) with (@nil json); [reflexivity |].
  induction earthquakes as [| quake rest IH]; simpl in *.
  - reflexivity.
  - apply andb_prop in H as [Hq Hrest]. rewrite Hq. simpl. auto.
Qed.

Lemma defaultdict_update_Forall {V : Type} (P : V -> Prop)
    (default : V) (f : V -> V) (d : list (Z * V)) (k : Z) :
  P (f default) -> (forall v, P v -> P (f v)) ->
  Forall P (values d) ->
  Forall P (values (defaultdict_update default f d k)).
Proof.
  intros Hdefault Hf. unfold values.
  induction d as [| [k' v] rest IH]; simpl; intros Hd.
  - constructor; [exact Hdefault | constructor].
  - inversion Hd as [| v0 l0 Hv Hrest]; subst.
    destruct (k' =? k); simpl; constructor; auto.
Qed.

Lemma average_magnitudes_total (mpy : list (Z * list json)) :
  Forall averageable (values mpy) ->
  exists avg, average_magnitudes np_mean_floats np_mean_other mpy = Ok avg.
Proof.
  unfold values.
  induction mpy as [| [k ms] rest IH]; simpl; intros H.
  - eexists. reflexivity.
  - inversion H as [| v0 l0 [Hne Hnum] Hrest]; subst.
    rewrite (np_mean_doubles ms Hne Hnum). simpl.
    destruct (IH Hrest) as [avg ->]. simpl. eexists. reflexivity.
Qed.

(** On records that can all be read and carry numeric magnitudes the
    function returns: the properties above are not vacuous. *)
Lemma get_annual_statistics_total (earthquakes : list json) :
  (forall quake, In quake earthquakes ->
     exists y m, read_quake utcoffset quake = Ok (y, m) /\
                 is_double m = true) ->
  exists qpy avg,
    get_annual_statistics utcoffset np_mean_floats np_mean_other earthquakes = Ok (qpy, avg).
Proof.
  intros Hwf.
  assert (Hloop : forall st, Forall averageable (values (snd st)) ->
             exists st', record_quakes utcoffset st earthquakes = Ok st' /\
                         Forall averageable (values (snd st'))).
  { induction earthquakes as [| quake rest IH]; intros st Hst; simpl.
    - exists st. auto.
    - destruct (Hwf quake (or_introl eq_refl)) as (y & m & Hread & Hm).
      rewrite (record_quake_counted st _ _ _ Hread). simpl.
      apply IH.
      + intros q Hin. apply Hwf. right. exact Hin.
      + simpl. apply defaultdict_update_Forall; [| | exact Hst].
        * split; [discriminate |]. simpl. rewrite Hm. reflexivity.
        * intros v [Hne Hnum]. split.
          -- destruct v; [contradiction | discriminate].
          -- rewrite forallb_app, Hnum. simpl. rewrite Hm. reflexivity. }
  destruct (Hloop ([], [])) as ([qpy mpy] & Hst & Hall); [constructor |].
  destruct (average_magnitudes_total mpy Hall) as [avg Ha].
  exists qpy, avg. unfold get_annual_statistics. rewrite Hst. simpl.
  rewrite Ha. reflexivity.
Qed.

(** ** Year derivation *)

Lemma get_year_of_timestamp (quake : json) :
  get_year utcoffset quake =
    (t <- timestamp_of quake ;;
     seconds <- truediv t 1000 ;;
     d <- date_fromtimestamp utcoffset seconds ;;
     Ok (year d)).
Proof.
  unfold get_year, timestamp_of.
  destruct (subscript quake "properties"); reflexivity.
Qed.

End Statistics.

(** * Fetching and sample data *)

Section Fetch.

Import PlotEarthquakes.

Variable mktime : Z -> Z.
Variable randint : nat -> Z -> Z -> Z.
Variable uniform : nat -> Q -> Q -> Q.
Variable json_error_is_request_exception : bool.

Lemma create_sample_data_features :
  subscript (create_sample_data mktime randint uniform) "features" =
    Ok (JList (map (sample_feature mktime randint uniform)
                   (seq 0 sample_size))).
Proof. reflexivity. Qed.

(** C6, as amended.  When [requests.get] raises a
    [RequestException], or returns a response with a 4xx or 5xx
    status, [get_data] does not raise: it prints its notice and
    returns the dataset of [create_sample_data], whose [features]
    array, the next thing the program reads, holds 1000 records. *)
Theorem get_data_falls_back (requests_get : result response) :
  (exists e, requests_get = Raise e /\
             is_RequestException json_error_is_request_exception e = true) \/
  (exists r, requests_get = Ok r /\ 400 <= status_code r < 600) ->
  get_data mktime randint uniform json_error_is_request_exception requests_get
    = ([Text "Using sample data (API request failed)"],
       Ok (create_sample_data mktime randint uniform)) /\
  exists features,
    subscript (create_sample_data mktime randint uniform) "features"
      = Ok (JList features) /\
    List.length features = 1000%nat.
Proof.
  intros H. split.
  - unfold get_data.
    destruct H as [(e & -> & He) | (r & -> & Hlo & Hhi)]; simpl.
    + rewrite He. reflexivity.
    + unfold raise_for_status.
      apply Z.leb_le in Hlo. apply Z.ltb_lt in Hhi. rewrite Hlo, Hhi.
      reflexivity.
  - eexists. split; [apply create_sample_data_features |].
    rewrite length_map, length_seq. reflexivity.
Qed.

(** C7, as amended.  Every record of [create_sample_data] is a
    dictionary with the single key [properties], under which it
    carries an integer [time], a float [mag] and a string [place]; it
    has no [geometry], hence no longitude and no latitude, and is not
    an [EarthquakeRecord] of the data model. *)
Theorem sample_records_have_no_location (features : list json) (r : json) :
  subscript (create_sample_data mktime randint uniform) "features"
    = Ok (JList features) ->
  In r features ->
  exists (i : nat) (time : Z) (mag : Q),
    (i < 1000)%nat /\
    r = JDict [("properties",
                JDict [("time", JNum (Int time));
                       ("mag", JNum (Float mag));
                       ("place", JStr (sample_place i))])] /\
    subscript r "geometry" = Raise KeyError /\
    Earthquakes.get_location r = Raise KeyError /\
    EarthquakeRecord_of_feature r = None.
Proof.
  intros H Hin.
  assert (E : features = map (sample_feature mktime randint uniform)
                             (seq 0 sample_size)).
  { rewrite create_sample_data_features in H. congruence. }
  rewrite E in Hin.
  apply in_map_iff in Hin as (i & <- & Hi). apply in_seq in Hi.
  exists i, (mktime ((base_date + randint i 0 days_range) * 86400) * 1000),
         (round1 (uniform i 1 6)).
  split; [unfold sample_size in Hi; lia |].
  repeat split.
Qed.

End Fetch.

(** * Printing the summary *)

Section Summary.

Import PlotEarthquakes.

Lemma snd_io_bind {A B : Type} (m : io A) (k : A -> io B) :
  snd (io_bind m k) =
    match snd m with
    | Ok a => snd (k a)
    | Raise e => Raise e
    end.
Proof.
  destruct m as [out [a | e]]; simpl; [| reflexivity].
  destruct (k a). reflexivity.
Qed.

Lemma insert_sorted_length (x : Z) (l : list Z) :
  List.length (insert_sorted x l) = S (List.length l).
Proof.
  induction l as [| y rest IH]; simpl; [reflexivity |].
  destruct (x <=? y); simpl; [reflexivity | rewrite IH; reflexivity].
Qed.

Lemma sorted_length (l : list Z) :
  List.length (sorted l) = List.length l.
Proof.
  induction l as [| x rest IH]; simpl; [reflexivity |].
  rewrite insert_sorted_length, IH. reflexivity.
Qed.

Lemma lookup_key {V : Type} (d : list (Z * V)) (k : Z) :
  In k (keys d) -> exists v, lookup d k = Some v.
Proof.
  unfold keys. induction d as [| [k' v] rest IH]; simpl; intros H.
  - destruct H.
  - destruct (Z.eqb_spec k' k) as [_ | Hne]; [eexists; reflexivity |].
    destruct H as [H | H]; [contradiction | exact (IH H)].
Qed.

Lemma max_from_key (d : list (Z * nat)) :
  forall best n, max_from best n d = best \/ In (max_from best n d) (keys d).
Proof.
  unfold keys. induction d as [| [k c] rest IH]; intros best n; simpl.
  - left. reflexivity.
  - destruct (n <? c)%nat.
    + destruct (IH k c) as [-> | H]; auto.
    + destruct (IH best n) as [-> | H]; auto.
Qed.

Lemma min_from_key (d : list (Z * nat)) :
  forall best n, min_from best n d = best \/ In (min_from best n d) (keys d).
Proof.
  unfold keys. induction d as [| [k c] rest IH]; intros best n; simpl.
  - left. reflexivity.
  - destruct (c <? n)%nat.
    + destruct (IH k c) as [-> | H]; auto.
    + destruct (IH best n) as [-> | H]; auto.
Qed.

(** C10. On the empty statistics that aggregation yields for zero
    records, [print_summary] writes its heading and then raises
    [IndexError] at [years[0]]; the division by [len(years)], which
    would raise [ZeroDivisionError], is not reached.  On any
    non-empty dictionary of counts it runs to its end. *)
Theorem print_summary_needs_a_year :
  (forall utcoffset np_mean_floats np_mean_other,
     get_annual_statistics utcoffset np_mean_floats np_mean_other []
       = Ok ([], [])) /\
  (forall avg,
     print_summary [] avg
       = ([Text "=== EARTHQUAKE DATA SUMMARY ==="], Raise IndexError)) /\
  int_truediv 0 (List.length (sorted (@keys nat []))) = Raise ZeroDivisionError /\
  (forall qpy avg, qpy <> [] -> snd (print_summary qpy avg) = Ok tt).
Proof.
  split; [reflexivity |]. split; [reflexivity |]. split; [reflexivity |].
  intros qpy avg Hne. unfold print_summary.
  destruct qpy as [| [k0 n0] rest]; [contradiction |].
  pose proof (sorted_length (keys ((k0, n0) :: rest))) as Hlen.
  destruct (sorted (keys ((k0, n0) :: rest))) as [| y0 years];
    [discriminate Hlen |].
  rewrite snd_io_bind. simpl snd. cbv iota beta.
  repeat (rewrite snd_io_bind; simpl snd; cbv iota beta).
  destruct (lookup_key ((k0, n0) :: rest) (max_from k0 n0 rest)) as [c1 H1].
  { destruct (max_from_key rest k0 n0) as [-> | H]; [left | right]; auto. }
  destruct (lookup_key ((k0, n0) :: rest) (min_from k0 n0 rest)) as [c2 H2].
  { destruct (min_from_key rest k0 n0) as [-> | H]; [left | right]; auto. }
  unfold getitem. rewrite H1.
  repeat (rewrite snd_io_bind; simpl snd; cbv iota beta).
  rewrite H2. reflexivity.
Qed.

End Summary.

(** * The theorems at sample inputs *)

Section Instances.

Import PlotEarthquakes.

Lemma sum_of_counts_is_counted_records_witness :
  exists qpy avg,
    get_annual_statistics UTC binary64_mean np_mean_ragged four_quakes = Ok (qpy, avg) /\
    list_sum (values qpy) = List.length (filter (counted UTC) four_quakes).
Proof.
  eexists. eexists. split.
  - vm_compute. reflexivity.
  - eapply (sum_of_counts_is_counted_records UTC binary64_mean np_mean_ragged
              (JDict [("features", JList four_quakes)]) four_quakes);
      [reflexivity | vm_compute; reflexivity].
Defined.

(** C8 as first stated fails: the year is not a function of the
    timestamp alone.  The derived year is the local one, and the same
    record falls in 1999 on a machine on UTC and in 2000 on a machine
    one hour ahead. *)
Lemma get_year_is_local :
  get_year UTC quake_new_year = Ok 1999 /\
  get_year CET quake_new_year = Ok 2000.
Proof. split; vm_compute; reflexivity. Qed.

(** ** Records with a malformed magnitude *)

(** C4 fails on the code.  A record whose [properties.mag] is [null]
    is not well-formed, yet the loop counts it, under its year and next
    to a well-formed record, and [np.mean] then raises [TypeError] on
    the list that holds [None]; on the well-formed records alone the
    function returns the statistics of the one good record. *)
Theorem null_magnitude_is_counted (np_mean_floats : list Q -> Q)
    (np_mean_other : list json -> result Q) :
  well_formed quake_null_mag = false /\
  filter well_formed [quake_2000; quake_null_mag] = [quake_2000] /\
  record_quakes UTC ([], []) [quake_2000; quake_null_mag]
    = Ok ([(2000, 2%nat)], [(2000, [JNum (Float (19 # 10)); JNull])]) /\
  get_annual_statistics UTC np_mean_floats np_mean_other [quake_2000; quake_null_mag]
    = Raise TypeError /\
  get_annual_statistics UTC np_mean_floats np_mean_other [quake_2000]
    = Ok ([(2000, 1%nat)], [(2000, 19 # 10)]).
Proof. repeat split; vm_compute; reflexivity. Qed.

(** C5 fails on the code for the same reason.  A list whose only
    record has a [null] magnitude holds no valid record, and the
    function raises [TypeError] instead of returning two empty
    dictionaries. *)
Theorem only_null_magnitude_raises (np_mean_floats : list Q -> Q)
    (np_mean_other : list json -> result Q) :
  forallb well_formed [quake_null_mag] = false /\
  counted UTC quake_null_mag = true /\
  get_annual_statistics UTC np_mean_floats np_mean_other [quake_null_mag] = Raise TypeError /\
  get_annual_statistics UTC np_mean_floats np_mean_other [] = Ok ([], []).
Proof. repeat split; vm_compute; reflexivity. Qed.

(** A timestamp beyond year 9999 is not caught either:
    [date.fromtimestamp] raises [ValueError], which leaves the
    function. *)
Lemma out_of_range_time_raises (np_mean_floats : list Q -> Q)
    (np_mean_other : list json -> result Q) :
  get_annual_statistics UTC np_mean_floats np_mean_other [quake_2000; quake_far_future]
    = Raise ValueError.
Proof. vm_compute. reflexivity. Qed.

(** ** Printing *)

Lemma print_summary_needs_a_year_witness :
  snd (print_summary [(2000, 2%nat); (2017, 1%nat)] []) = Ok tt.
Proof.
  apply print_summary_needs_a_year. discriminate.
Defined.

(** ** Fetching *)

Lemma get_data_falls_back_witness :
  get_data mktime_UTC randint_example uniform_example true (Ok response_503)
    = ([Text "Using sample data (API request failed)"],
       Ok (create_sample_data mktime_UTC randint_example uniform_example)).
Proof.
  apply (get_data_falls_back mktime_UTC randint_example uniform_example true
           (Ok response_503)).
  right. exists response_503. split; [reflexivity | simpl; lia].
Defined.

(** C6 as first stated fails on a status outside 2xx that
    [raise_for_status] lets through: on a 300 response with a JSON
    body [get_data] prints nothing and returns that body, which is not
    the sample dataset. *)
Lemma status_300_is_returned :
  ~ (200 <= status_code response_300 < 300) /\
  get_data mktime_UTC randint_example uniform_example true (Ok response_300)
    = ([], Ok (JDict [("features", JList [])])) /\
  JDict [("features", JList [])]
    <> create_sample_data mktime_UTC randint_example uniform_example.
Proof.
  split; [simpl; lia |]. split; [reflexivity |].
  unfold create_sample_data, sample_size. simpl. discriminate.
Qed.

Lemma sample_records_have_no_location_witness :
  Earthquakes.get_location
    (sample_feature mktime_UTC randint_example uniform_example 12)
    = Raise KeyError.
Proof.
  destruct (sample_records_have_no_location
              mktime_UTC randint_example uniform_example
              (map (sample_feature mktime_UTC randint_example uniform_example)
                   (seq 0 sample_size))
              (sample_feature mktime_UTC randint_example uniform_example 12)
              eq_refl)
    as (i & time & mag & _ & _ & _ & H & _).
  - apply in_map. apply in_seq. unfold sample_size. lia.
  - exact H.
Defined.

(** C7 as first stated fails on the first sample record, as on every
    other: it has no [geometry], so [get_location] raises [KeyError]
    on it and it cannot be read as an [EarthquakeRecord]. *)
Lemma first_sample_record_has_no_location :
  exists features r,
    subscript (create_sample_data mktime_UTC randint_example uniform_example)
              "features" = Ok (JList features) /\
    nth_error features 0 = Some r /\
    r = JDict [("properties",
                JDict [("time", JNum (Int 946684800000));
                       ("mag", JNum (Float (31 # 10)));
                       ("place", JStr "Sample Location 0")])] /\
    Earthquakes.get_location r = Raise KeyError /\
    EarthquakeRecord_of_feature r = None.
Proof.
  eexists. eexists. split; [reflexivity |].
  split; [reflexivity |].
  split; [vm_compute; reflexivity |].
  split; reflexivity.
Qed.

End Instances.

(** * Further properties of [earthquakes.py] *)

Section MaximumMore.

Import Earthquakes.

(** The loop keeps the first record that reaches the final maximum:
    either nothing exceeded the start, or the list splits around the
    kept record with strictly smaller magnitudes before it and none
    greater after it. *)
Lemma get_maximum_loop_first (features : list json) :
  forall (m0 e0 m e : json) (q0 : Q),
    to_Q m0 = Some q0 ->
    get_maximum_loop features m0 e0 = Ok (m, e) ->
    (m = m0 /\ e = e0) \/
    exists before after q,
      features = before ++ e :: after /\
      has_magnitude e m q /\ (q0 < q)%Q /\
      (forall e', In e' before ->
         exists m' q', has_magnitude e' m' q' /\ (q' < q)%Q) /\
      (forall e', In e' after ->
         exists m' q', has_magnitude e' m' q' /\ (q' <= q)%Q).
Proof.
  induction features as [| earthquake rest IH]; intros m0 e0 m e q0 Hq0 Hloop.
  - simpl in Hloop. injection Hloop as <- <-. left. auto.
  - simpl in Hloop.
    apply bind_Ok in Hloop as (mag & Hmag & Hloop).
    apply bind_Ok in Hloop as (greater & Hgt & Hloop).
    apply gt_Ok in Hgt as (x & y & Hx & Hy & Hcmp).
    rewrite Hq0 in Hy. injection Hy as <-.
    destruct greater.
    + right.
      destruct (get_maximum_loop_spec rest _ _ _ _ x Hx Hloop)
        as (q & Hq & Hle & Hall & _).
      destruct (IH _ _ _ _ x Hx Hloop)
        as [[-> ->] | (before & after & q' & -> & Hm & Hlt & Hb & Ha)].
      * exists [], rest, x. rewrite Hx in Hq. injection Hq as <-.
        repeat split; try assumption.
        intros e' [].
      * exists (earthquake :: before), after, q'.
        split; [reflexivity |]. split; [exact Hm |].
        split; [eapply Qlt_trans; eassumption |]. split; [| exact Ha].
        intros e' [<- | Hin]; [| apply Hb; exact Hin].
        exists mag, x. split; [split; assumption | exact Hlt].
    + destruct (IH _ _ _ _ q0 Hq0 Hloop)
        as [[-> ->] | (before & after & q' & -> & Hm & Hlt & Hb & Ha)].
      * left. auto.
      * right. exists (earthquake :: before), after, q'.
        split; [reflexivity |]. split; [exact Hm |].
        split; [exact Hlt |]. split; [| exact Ha].
        intros e' [<- | Hin]; [| apply Hb; exact Hin].
        exists mag, x. split; [split; assumption |].
        eapply Qle_lt_trans; eassumption.
Qed.

(** How [get_maximum] returns on a [features] array: through its loop
    and then [get_location]. *)
Lemma get_maximum_Ok_loop (data m : json) (loc : json * json)
    (features : list json) :
  subscript data "features" = Ok (JList features) ->
  get_maximum data = Ok (m, loc) ->
  exists e,
    get_maximum_loop features (JNum (Int (-1))) JNull = Ok (m, e) /\
    get_location e = Ok loc.
Proof.
  unfold get_maximum. intros Hf H. rewrite Hf in H. simpl in H.
  apply bind_Ok in H as ([mm me] & Hloop & H).
  apply bind_Ok in H as (max_location & Hloc & H).
  injection H as <- <-. exists me. split; assumption.
Qed.

(** X1. Of several records that share the greatest magnitude,
    [get_maximum] returns the first: every record before the selected
    one is strictly weaker, every record after it is at most as
    strong. *)
Theorem get_maximum_selects_first
    (data m : json) (loc : json * json) (features : list json) :
  subscript data "features" = Ok (JList features) ->
  get_maximum data = Ok (m, loc) ->
  exists before e after q,
    features = before ++ e :: after /\
    has_magnitude e m q /\ get_location e = Ok loc /\
    (forall e', In e' before ->
       exists m' q', has_magnitude e' m' q' /\ (q' < q)%Q) /\
    (forall e', In e' after ->
       exists m' q', has_magnitude e' m' q' /\ (q' <= q)%Q).
Proof.
  intros Hf Hmax.
  destruct (get_maximum_Ok_loop _ _ _ _ Hf Hmax) as (e & Hloop & Hloc).
  destruct (get_maximum_loop_first features (JNum (Int (-1))) JNull m e
              (inject_Z (-1)) eq_refl Hloop)
    as [[_ ->] | (before & after & q & Hsplit & Hm & _ & Hb & Ha)].
  - rewrite get_location_None in Hloc. discriminate Hloc.
  - exists before, e, after, q. repeat split; try assumption; apply Hm.
Qed.

Lemma subscript_error (obj : json) (key : string) (e : exn) :
  subscript obj key = Raise e -> is_KeyError_or_TypeError e = true.
Proof.
  unfold subscript. destruct obj as [| b | n | s | l | d];
    try (intros H; injection H as <-; reflexivity).
  destruct (dict_get d key); [discriminate |].
  intros H. injection H as <-. reflexivity.
Qed.

Lemma get_magnitude_error (earthquake : json) (e : exn) :
  get_magnitude earthquake = Raise e -> is_KeyError_or_TypeError e = true.
Proof.
  unfold get_magnitude.
  destruct (subscript earthquake "properties") as [p | e'] eqn:Hp; simpl.
  - apply subscript_error.
  - intros H. injection H as <-. eapply subscript_error. exact Hp.
Qed.

(** A record without a numeric magnitude stops the loop with
    [KeyError] or [TypeError], wherever it stands. *)
Lemma get_maximum_loop_bad_record (features : list json) :
  forall (m0 e0 bad : json) (q0 : Q),
    to_Q m0 = Some q0 ->
    In bad features ->
    (forall m q, ~ has_magnitude bad m q) ->
    exists err,
      get_maximum_loop features m0 e0 = Raise err /\
      is_KeyError_or_TypeError err = true.
Proof.
  induction features as [| earthquake rest IH];
    intros m0 e0 bad q0 Hq0 Hin Hbad.
  - destruct Hin.
  - simpl.
    destruct (get_magnitude earthquake) as [mag | e] eqn:Hmag; simpl.
    + unfold gt. rewrite Hq0.
      destruct (to_Q mag) as [x |] eqn:Hx; simpl.
      * destruct Hin as [<- | Hin].
        { exfalso. apply (Hbad mag x). split; assumption. }
        destruct (negb (Qle_bool x q0)).
        -- apply (IH mag earthquake bad x Hx Hin Hbad).
        -- apply (IH m0 e0 bad q0 Hq0 Hin Hbad).
      * exists TypeError. auto.
    + exists e. split; [reflexivity |].
      apply (get_magnitude_error earthquake). exact Hmag.
Qed.

(** X2. [get_maximum] skips nothing: one record without a numeric
    magnitude anywhere in the array makes it raise [KeyError] or
    [TypeError], whatever the other records hold. *)
Theorem get_maximum_fails_on_bad_record
    (data bad : json) (features : list json) :
  subscript data "features" = Ok (JList features) ->
  In bad features ->
  (forall m q, ~ has_magnitude bad m q) ->
  exists err,
    get_maximum data = Raise err /\ is_KeyError_or_TypeError err = true.
Proof.
  intros Hf Hin Hbad.
  destruct (get_maximum_loop_bad_record features (JNum (Int (-1))) JNull bad
              (inject_Z (-1)) eq_refl Hin Hbad) as (err & Hloop & Herr).
  exists err. split; [| exact Herr].
  unfold get_maximum. rewrite Hf. simpl. rewrite Hloop. reflexivity.
Qed.

(** The loop over a concatenation is the loop over the second list
    started from the outcome of the first. *)
Lemma get_maximum_loop_app (l1 l2 : list json) :
  forall m0 e0 : json,
    get_maximum_loop (l1 ++ l2) m0 e0 =
    bind (get_maximum_loop l1 m0 e0)
         (fun st => get_maximum_loop l2 (fst st) (snd st)).
Proof.
  induction l1 as [| earthquake rest IH]; intros m0 e0; simpl.
  - reflexivity.
  - destruct (get_magnitude earthquake) as [mag | e]; simpl; [| reflexivity].
    destruct (gt mag m0) as [[|] | e]; simpl; [apply IH | apply IH | reflexivity].
Qed.

(** X3. Records appended to the feed that are no stronger than the
    current maximum do not change what [get_maximum] returns. *)
Theorem get_maximum_stable_under_weaker
    (data data' m : json) (loc : json * json) (q : Q)
    (features more : list json) :
  subscript data "features" = Ok (JList features) ->
  subscript data' "features" = Ok (JList (features ++ more)) ->
  get_maximum data = Ok (m, loc) ->
  to_Q m = Some q ->
  (forall e, In e more -> exists m' q', has_magnitude e m' q' /\ (q' <= q)%Q) ->
  get_maximum data' = Ok (m, loc).
Proof.
  intros Hf Hf' Hmax Hq Hmore.
  destruct (get_maximum_Ok_loop _ _ _ _ Hf Hmax) as (e & Hloop & Hloc).
  unfold get_maximum. rewrite Hf'. simpl.
  rewrite get_maximum_loop_app, Hloop. simpl.
  rewrite (get_maximum_loop_none_greater more m e q Hq Hmore). simpl.
  rewrite Hloc. reflexivity.
Qed.

(** ** The script *)

(** X4. The script reports the count before it looks for the maximum and
    never checks the response status: on a failed request it prints
    nothing and raises; on a feed whose array is empty it prints
    "Loaded 0" and then fails with [TypeError]; and when it runs to
    its end it has printed the two lines, the count being at least 1
    and the second line carrying what [get_maximum] returned. *)
Theorem script_reports_count_first
    (r : PlotEarthquakes.response) (data : json) (features : list json) :
  PlotEarthquakes.body r = Some data ->
  subscript data "features" = Ok (JList features) ->
  (forall e, EarthquakesScript.script (Raise e) = ([], Raise e)) /\
  (features = [] ->
   EarthquakesScript.script (Ok r)
     = ([EarthquakesScript.Loaded 0], Raise TypeError)) /\
  (forall out, EarthquakesScript.script (Ok r) = (out, Ok tt) ->
     exists m loc,
       get_maximum data = Ok (m, loc) /\
       (1 <= List.length features)%nat /\
       out = [EarthquakesScript.Loaded (List.length features);
              EarthquakesScript.Strongest loc m]).
Proof.
  intros Hbody Hf.
  assert (Hscript : EarthquakesScript.script (Ok r) =
            match get_maximum data with
            | Raise e => ([EarthquakesScript.Loaded (List.length features)],
                          Raise e)
            | Ok (m, loc) =>
                ([EarthquakesScript.Loaded (List.length features);
                  EarthquakesScript.Strongest loc m], Ok tt)
            end).
  { unfold EarthquakesScript.script, EarthquakesScript.get_data,
      PlotEarthquakes.response_json, count_earthquakes.
    simpl. rewrite Hbody, Hf. reflexivity. }
  split; [reflexivity |]. split.
  - intros ->. rewrite Hscript. unfold get_maximum. rewrite Hf. reflexivity.
  - intros out Hout. rewrite Hscript in Hout.
    destruct (get_maximum data) as [[m loc] | e] eqn:Hmax; [| discriminate].
    injection Hout as <-. exists m, loc.
    split; [reflexivity |]. split; [| reflexivity].
    apply get_maximum_inv in Hmax
      as (fs & earthquakes & e & q & Hf' & Hi & Hin & _).
    rewrite Hf in Hf'. injection Hf' as <-.
    simpl in Hi. injection Hi as <-.
    destruct features; [destruct Hin | simpl; lia].
Qed.

End MaximumMore.

(** * Further properties of [get_annual_statistics] *)

Section StatisticsMore.

Import PlotEarthquakes.

Variable utcoffset : Z -> Z.
Variable np_mean_floats : list Q -> Q.
Variable np_mean_other : list json -> result Q.

Lemma timestamp_of_error (quake : json) (e : exn) :
  timestamp_of quake = Raise e -> is_KeyError_or_TypeError e = true.
Proof.
  unfold timestamp_of.
  destruct (subscript quake "properties") as [p | e'] eqn:Hp; simpl.
  - apply subscript_error.
  - intros H. injection H as <-. eapply subscript_error. exact Hp.
Qed.

Lemma date_fromtimestamp_Ok (t : Q) (d : date) :
  date_fromtimestamp utcoffset t = Ok d ->
  d = civil_from_days ((Qfloor t + utcoffset (Qfloor t)) / 86400) /\
  MINYEAR <= year d <= MAXYEAR.
Proof.
  unfold date_fromtimestamp.
  destruct (negb (_ && _)); [discriminate |].
  destruct (_ =? _); [discriminate |].
  destruct (negb (_ && _)); [discriminate |].
  destruct (_ && _) eqn:Hrange; [| discriminate].
  intros H. injection H as <-. split; [reflexivity |].
  apply andb_prop in Hrange as [Hlo Hhi].
  apply Z.leb_le in Hlo. apply Z.leb_le in Hhi. split; assumption.
Qed.

Lemma date_fromtimestamp_error (t : Q) (e : exn) :
  date_fromtimestamp utcoffset t = Raise e -> is_range_error e = true.
Proof.
  unfold date_fromtimestamp.
  destruct (negb (_ && _)); [intros H; injection H as <-; reflexivity |].
  destruct (_ =? _); [intros H; injection H as <-; reflexivity |].
  destruct (negb (_ && _)); [intros H; injection H as <-; reflexivity |].
  destruct (_ && _); [discriminate |].
  intros H. injection H as <-. reflexivity.
Qed.

(** X5. The outcomes of [get_year]: a year of the calendar, between
    [MINYEAR] and [MAXYEAR], only when the timestamp is a number; when
    the timestamp is a number that [date.fromtimestamp] refuses,
    [ValueError], [OverflowError] or [OSError], none of which the
    loop of [get_annual_statistics] catches; and [KeyError] or
    [TypeError] when the timestamp is missing or not a number. *)
Theorem get_year_outcomes (quake : json) :
  (forall y, get_year utcoffset quake = Ok y ->
     MINYEAR <= y <= MAXYEAR /\
     exists t, timestamp_of quake = Ok t /\ is_number t = true) /\
  (forall e, get_year utcoffset quake = Raise e ->
     (is_range_error e = true /\ is_KeyError_or_TypeError e = false /\
      exists t, timestamp_of quake = Ok t /\ is_number t = true) \/
     (is_KeyError_or_TypeError e = true /\
      forall t, timestamp_of quake = Ok t -> is_number t = false)).
Proof.
  rewrite get_year_of_timestamp.
  destruct (timestamp_of quake) as [t | e0] eqn:Ht; simpl.
  - destruct (truediv t 1000) as [x | e1] eqn:Hdiv; simpl.
    + apply truediv_Ok in Hdiv as (q & Hq & _).
      assert (Hnum : is_number t = true) by (unfold is_number; rewrite Hq; auto).
      destruct (date_fromtimestamp utcoffset x) as [d | e2] eqn:Hd; simpl.
      * split; [| discriminate].
        intros y H. injection H as <-.
        apply date_fromtimestamp_Ok in Hd as [_ Hrange].
        split; [exact Hrange |]. exists t. auto.
      * split; [discriminate |].
        intros e H. injection H as <-. left.
        apply date_fromtimestamp_error in Hd.
        split; [exact Hd |].
        split; [destruct e2; try discriminate Hd; reflexivity |].
        exists t. auto.
    + split; [discriminate |].
      intros e H. injection H as <-.
      apply truediv_error in Hdiv as [[-> Hq] | [-> (q & Hq)]].
      * right. split; [reflexivity |].
        intros t' Ht'. injection Ht' as <-.
        unfold is_number. rewrite Hq. reflexivity.
      * left. split; [reflexivity |]. split; [reflexivity |].
        exists t. unfold is_number. rewrite Hq. auto.
  - split; [discriminate |].
    intros e H. injection H as <-. right.
    split; [eapply timestamp_of_error; exact Ht | discriminate].
Qed.

Lemma get_year_error (quake : json) (e : exn) :
  get_year utcoffset quake = Raise e ->
  is_KeyError_or_TypeError e = true \/ is_range_error e = true.
Proof.
  rewrite get_year_of_timestamp.
  destruct (timestamp_of quake) as [t | e0] eqn:Ht; simpl.
  - destruct (truediv t 1000) as [x | e1] eqn:Hdiv; simpl.
    + destruct (date_fromtimestamp utcoffset x) as [d | e2] eqn:Hd; simpl;
        [discriminate |].
      intros H. injection H as <-. right.
      eapply date_fromtimestamp_error. exact Hd.
    + intros H. injection H as <-.
      apply truediv_error in Hdiv as [[-> _] | [-> _]]; auto.
  - intros H. injection H as <-. left. eapply timestamp_of_error. exact Ht.
Qed.

Lemma read_quake_error (quake : json) (e : exn) :
  read_quake utcoffset quake = Raise e ->
  is_KeyError_or_TypeError e = true \/ is_range_error e = true.
Proof.
  unfold read_quake.
  destruct (get_year utcoffset quake) as [y | e0] eqn:Hy; simpl.
  - destruct (get_magnitude quake) as [m | e1] eqn:Hm; simpl; [discriminate |].
    intros H. injection H as <-. left.
    apply (get_magnitude_error quake). exact Hm.
  - intros H. injection H as <-. eapply get_year_error. exact Hy.
Qed.

(** A record on which the body of the [try] raises an exception that
    the handler does not cover stops the loop, wherever it stands:
    the loop raises the first such exception it meets. *)
Lemma record_quakes_uncaught (earthquakes : list json) :
  forall (st : statistics) (quake : json) (e : exn),
    In quake earthquakes ->
    read_quake utcoffset quake = Raise e ->
    is_KeyError_or_TypeError e = false ->
    exists e',
      record_quakes utcoffset st earthquakes = Raise e' /\
      is_KeyError_or_TypeError e' = false /\ is_range_error e' = true.
Proof.
  induction earthquakes as [| q rest IH]; intros st quake e Hin Hread He.
  - destruct Hin.
  - simpl. destruct st as [qpy mpy]. unfold record_quake.
    destruct (read_quake utcoffset q) as [[y m] | e0] eqn:Hq; simpl.
    + destruct Hin as [-> | Hin]; [congruence |].
      apply (IH _ quake e Hin Hread He).
    + destruct (is_KeyError_or_TypeError e0) eqn:He0; simpl.
      * destruct Hin as [-> | Hin]; [| apply (IH _ quake e Hin Hread He)].
        rewrite Hread in Hq. injection Hq as <-. congruence.
      * exists e0. split; [reflexivity |]. split; [exact He0 |].
        destruct (read_quake_error q e0 Hq); [congruence | assumption].
Qed.

(** X6. One record on which [get_year] raises an exception other than
    [KeyError] and [TypeError], as it does on a numeric timestamp
    outside the calendar, makes [get_annual_statistics] fail,
    wherever the record stands and whatever the other records hold:
    the function raises [ValueError], [OverflowError] or [OSError],
    which the handler of its loop does not cover. *)
Theorem get_annual_statistics_out_of_range
    (earthquakes : list json) (quake : json) (e : exn) :
  In quake earthquakes ->
  get_year utcoffset quake = Raise e ->
  is_KeyError_or_TypeError e = false ->
  exists e',
    get_annual_statistics utcoffset np_mean_floats np_mean_other earthquakes
      = Raise e' /\
    is_KeyError_or_TypeError e' = false /\ is_range_error e' = true.
Proof.
  intros Hin Hy He.
  destruct (record_quakes_uncaught earthquakes ([], []) quake e Hin)
    as (e' & Hloop & He' & Hrange).
  - unfold read_quake. rewrite Hy. reflexivity.
  - exact He.
  - exists e'. split; [| split; assumption].
    unfold get_annual_statistics. rewrite Hloop. reflexivity.
Qed.

(** ** The years of the result *)

Lemma keys_defaultdict_update {V : Type} (default : V) (f : V -> V)
    (d : list (Z * V)) (k : Z) :
  keys (defaultdict_update default f d k) =
    if existsb (Z.eqb k) (keys d) then keys d else keys d ++ [k].
Proof.
  unfold keys. induction d as [| [k' v] rest IH]; simpl.
  - reflexivity.
  - rewrite (Z.eqb_sym k k').
    destruct (k' =? k); simpl; [reflexivity |].
    rewrite IH. destruct (existsb (Z.eqb k) (map fst rest)); reflexivity.
Qed.

Lemma NoDup_snoc (l : list Z) (k : Z) :
  NoDup l -> existsb (Z.eqb k) l = false -> NoDup (l ++ [k]).
Proof.
  induction l as [| x rest IH]; simpl; intros Hnd Hk.
  - constructor; [intros [] | constructor].
  - apply orb_false_elim in Hk as [Hx Hrest].
    inversion Hnd as [| x0 l0 Hnotin Hnd']; subst.
    constructor; [| apply IH; assumption].
    intros Hin. apply in_app_or in Hin as [Hin | [Heq | []]].
    + contradiction.
    + subst. rewrite Z.eqb_refl in Hx. discriminate Hx.
Qed.

(** The loop keeps the two dictionaries on the same years, in the
    same order, each year once. *)
Lemma record_quakes_keys (earthquakes : list json) :
  forall st st' : statistics,
    record_quakes utcoffset st earthquakes = Ok st' ->
    keys (fst st) = keys (snd st) -> NoDup (keys (fst st)) ->
    keys (fst st') = keys (snd st') /\ NoDup (keys (fst st')).
Proof.
  induction earthquakes as [| quake rest IH]; intros st st' H Hk Hnd;
    simpl in H.
  - injection H as <-. auto.
  - apply bind_Ok in H as (st1 & Hstep & Hrest).
    apply (IH st1 st' Hrest).
    + destruct (record_quake_Ok utcoffset _ _ _ Hstep)
        as [(y & m & Hread) | (_ & _ & ->)]; [| exact Hk].
      rewrite (record_quake_counted utcoffset st _ _ _ Hread) in Hstep.
      injection Hstep as <-. simpl.
      rewrite !keys_defaultdict_update, Hk. reflexivity.
    + destruct (record_quake_Ok utcoffset _ _ _ Hstep)
        as [(y & m & Hread) | (_ & _ & ->)]; [| exact Hnd].
      rewrite (record_quake_counted utcoffset st _ _ _ Hread) in Hstep.
      injection Hstep as <-. simpl.
      rewrite keys_defaultdict_update.
      destruct (existsb (Z.eqb y) (keys (fst st))) eqn:E;
        [exact Hnd | apply NoDup_snoc; assumption].
Qed.

Lemma average_magnitudes_keys (mpy : list (Z * list json)) :
  forall avg, average_magnitudes np_mean_floats np_mean_other mpy = Ok avg ->
              keys avg = keys mpy.
Proof.
  unfold keys. induction mpy as [| [k ms] rest IH]; intros avg H; simpl in H.
  - injection H as <-. reflexivity.
  - apply bind_Ok in H as (mean & _ & H).
    apply bind_Ok in H as (avgs & Havgs & H).
    injection H as <-. simpl. rewrite (IH avgs Havgs). reflexivity.
Qed.

Lemma get_year_range (quake : json) (y : Z) :
  get_year utcoffset quake = Ok y -> MINYEAR <= y <= MAXYEAR.
Proof.
  unfold get_year. intros H.
  apply bind_Ok in H as (p & _ & H). apply bind_Ok in H as (t & _ & H).
  apply bind_Ok in H as (x & _ & H). apply bind_Ok in H as (d & Hd & H).
  injection H as <-. apply date_fromtimestamp_Ok in Hd as [_ Hrange].
  exact Hrange.
Qed.

(** The count of a year, 0 when the year is absent, is the number of
    counted records of that year. *)
Lemma count_of_year (earthquakes : list json)
    (qpy : list (Z * nat)) (avg : list (Z * Q)) (y : Z) :
  get_annual_statistics utcoffset np_mean_floats np_mean_other earthquakes = Ok (qpy, avg) ->
  get_default 0%nat (lookup qpy y) =
    List.length (magnitudes_of_year utcoffset y earthquakes).
Proof.
  intros H.
  apply get_annual_statistics_inv in H as (mpy & Hloop & _).
  destruct (record_quakes_lookup utcoffset _ _ _ y Hloop) as [Hq _].
  simpl in Hq. rewrite Hq.
  destruct (magnitudes_of_year utcoffset y earthquakes); reflexivity.
Qed.

(** X7. The two dictionaries returned list the same years in the same
    order; no year occurs twice, and every year lies between
    [MINYEAR] and [MAXYEAR]. *)
Theorem statistics_share_their_years (earthquakes : list json)
    (qpy : list (Z * nat)) (avg : list (Z * Q)) :
  get_annual_statistics utcoffset np_mean_floats np_mean_other earthquakes = Ok (qpy, avg) ->
  keys avg = keys qpy /\
  NoDup (keys qpy) /\
  forall y, In y (keys qpy) -> MINYEAR <= y <= MAXYEAR.
Proof.
  intros H.
  pose proof (fun y => year_present_iff utcoffset np_mean_floats np_mean_other _ _ _ y H)
    as Hyear.
  apply get_annual_statistics_inv in H as (mpy & Hloop & Havg).
  destruct (record_quakes_keys _ _ _ Hloop eq_refl (NoDup_nil Z))
    as [Hk Hnd]. simpl in Hk, Hnd.
  split; [rewrite (average_magnitudes_keys _ _ Havg); auto |].
  split; [exact Hnd |].
  intros y Hin.
  apply lookup_key in Hin.
  apply (Hyear y) in Hin as (quake & m & _ & Hread).
  unfold read_quake in Hread.
  apply bind_Ok in Hread as (y' & Hy & Hread).
  apply bind_Ok in Hread as (m' & _ & Hread).
  injection Hread as -> ->. apply (get_year_range quake). exact Hy.
Qed.

(** ** Splitting and reordering the input *)

Lemma magnitudes_of_year_app (y : Z) (l1 l2 : list json) :
  magnitudes_of_year utcoffset y (l1 ++ l2) =
  magnitudes_of_year utcoffset y l1 ++ magnitudes_of_year utcoffset y l2.
Proof.
  induction l1 as [| quake rest IH]; simpl; [reflexivity |].
  destruct (read_quake utcoffset quake) as [[y' m] | e]; [| exact IH].
  destruct (y' =? y); simpl; [rewrite IH |]; auto.
Qed.

(** X8. Counts add up over a feed delivered in two parts: for every year,
    the count over the concatenation is the sum of the counts over the
    parts (an absent year counting 0). *)
Theorem counts_add_over_concatenation (l1 l2 : list json)
    (q1 q2 q12 : list (Z * nat)) (a1 a2 a12 : list (Z * Q)) (y : Z) :
  get_annual_statistics utcoffset np_mean_floats np_mean_other l1 = Ok (q1, a1) ->
  get_annual_statistics utcoffset np_mean_floats np_mean_other l2 = Ok (q2, a2) ->
  get_annual_statistics utcoffset np_mean_floats np_mean_other (l1 ++ l2) = Ok (q12, a12) ->
  get_default 0%nat (lookup q12 y) =
    (get_default 0%nat (lookup q1 y) + get_default 0%nat (lookup q2 y))%nat.
Proof.
  intros H1 H2 H12.
  rewrite (count_of_year _ _ _ y H1), (count_of_year _ _ _ y H2),
    (count_of_year _ _ _ y H12).
  rewrite magnitudes_of_year_app. apply length_app.
Qed.

Lemma magnitudes_of_year_Permutation (y : Z) (l l' : list json) :
  Permutation l l' ->
  Permutation (magnitudes_of_year utcoffset y l)
              (magnitudes_of_year utcoffset y l').
Proof.
  induction 1 as [| q l l' _ IH | q1 q2 l | l l' l'' _ IH1 _ IH2]; simpl.
  - constructor.
  - destruct (read_quake utcoffset q) as [[y' m] | e]; [| exact IH].
    destruct (y' =? y); [constructor |]; exact IH.
  - destruct (read_quake utcoffset q1) as [[y1 m1] | e1];
      destruct (read_quake utcoffset q2) as [[y2 m2] | e2];
      try destruct (y1 =? y); try destruct (y2 =? y);
      try apply Permutation_refl.
    apply perm_swap.
  - eapply Permutation_trans; eassumption.
Qed.

(** X9. The counts do not depend on the order of the records: two feeds
    that are permutations of one another get the same count for every
    year. *)
Theorem counts_ignore_order (l l' : list json)
    (qpy qpy' : list (Z * nat)) (avg avg' : list (Z * Q)) (y : Z) :
  Permutation l l' ->
  get_annual_statistics utcoffset np_mean_floats np_mean_other l = Ok (qpy, avg) ->
  get_annual_statistics utcoffset np_mean_floats np_mean_other l' = Ok (qpy', avg') ->
  lookup qpy y = lookup qpy' y.
Proof.
  intros Hperm H H'.
  apply get_annual_statistics_inv in H as (mpy & Hloop & _).
  apply get_annual_statistics_inv in H' as (mpy' & Hloop' & _).
  destruct (record_quakes_lookup utcoffset _ _ _ y Hloop) as [Hq _].
  destruct (record_quakes_lookup utcoffset _ _ _ y Hloop') as [Hq' _].
  simpl in Hq, Hq'. rewrite Hq, Hq'.
  pose proof (magnitudes_of_year_Permutation y _ _ Hperm) as Hms.
  pose proof (Permutation_length Hms) as Hlen.
  destruct (magnitudes_of_year utcoffset y l);
    destruct (magnitudes_of_year utcoffset y l');
    try discriminate Hlen; [reflexivity |].
  rewrite Hlen. reflexivity.
Qed.

(** ** Records as the specification reads them *)

(** A field of [properties] is what the two subscripts of the program
    reach. *)
Lemma property_subscript (record : json) (name : string) (v : json) :
  property record name = Some v <->
  (properties <- subscript record "properties" ;;
   subscript properties name) = Ok v.
Proof.
  unfold property, subscript.
  destruct record as [| b | n | s | l | fields]; simpl;
    try (split; discriminate).
  destruct (dict_get fields "properties") as [p |]; simpl;
    [| split; discriminate].
  destruct p as [| b | n | s | l | properties]; simpl;
    try (split; discriminate).
  destruct (dict_get properties name) as [w |];
    split; intros H; try discriminate H; injection H as <-; reflexivity.
Qed.

Lemma date_fromtimestamp_time_t (t : Q) (d : date) :
  date_fromtimestamp utcoffset t = Ok d ->
  TIME_T_MIN <= Qfloor t <= TIME_T_MAX.
Proof.
  unfold date_fromtimestamp.
  destruct ((TIME_T_MIN <=? Qfloor t) && (Qfloor t <=? TIME_T_MAX + 1)) eqn:E;
    [| discriminate].
  destruct (Z.eqb_spec (Qfloor t) (TIME_T_MAX + 1)) as [| Hne];
    [discriminate |].
  intros _. apply andb_prop in E as [Hlo Hhi].
  apply Z.leb_le in Hlo. apply Z.leb_le in Hhi. lia.
Qed.

(** A second that fits a [time_t] and falls in a year of the calendar
    has a date. *)
Lemma date_fromtimestamp_in_calendar (t : Q) :
  TIME_T_MIN <= Qfloor t <= TIME_T_MAX ->
  MINYEAR <= year (civil_from_days
                     ((Qfloor t + utcoffset (Qfloor t)) / 86400)) <= MAXYEAR ->
  date_fromtimestamp utcoffset t
    = Ok (civil_from_days ((Qfloor t + utcoffset (Qfloor t)) / 86400)).
Proof.
  intros Htime Hyear. unfold date_fromtimestamp.
  set (seconds := Qfloor t) in *.
  set (d := civil_from_days ((seconds + utcoffset seconds) / 86400)) in *.
  assert (H31 : 2 ^ 31 = 2147483648) by reflexivity.
  unfold MINYEAR, MAXYEAR, INT_MIN, INT_MAX in *.
  destruct (Z.leb_spec TIME_T_MIN seconds) as [_ | H]; [| lia].
  destruct (Z.leb_spec seconds (TIME_T_MAX + 1)) as [_ | H]; [| lia].
  destruct (Z.eqb_spec seconds (TIME_T_MAX + 1)) as [H | _]; [lia |].
  destruct (Z.leb_spec (- 2 ^ 31) (year d - 1900)) as [_ | H]; [| lia].
  destruct (Z.leb_spec (year d - 1900) (2 ^ 31 - 1)) as [_ | H]; [| lia].
  destruct (Z.leb_spec 1 (year d)) as [_ | H]; [| lia].
  destruct (Z.leb_spec (year d) 9999) as [_ | H]; [| lia].
  reflexivity.
Qed.

Lemma in_calendar_spec (millis : Q) :
  in_calendar utcoffset millis = true <->
  TIME_T_MIN <= epoch_second millis <= TIME_T_MAX /\
  MINYEAR <= local_year utcoffset millis <= MAXYEAR.
Proof.
  unfold in_calendar. rewrite !andb_true_iff, !Z.leb_le. tauto.
Qed.

(** The quotient of a timestamp whose second fits a [time_t] is
    within the range of the doubles. *)
Lemma truediv_in_range (t : json) (millis : Q) :
  to_Q t = Some millis ->
  TIME_T_MIN <= epoch_second millis <= TIME_T_MAX ->
  truediv t 1000 = Ok (round_binary64 (millis / inject_Z 1000)).
Proof.
  intros Ht Hrange. unfold truediv.
  assert (Hno : float_overflow (millis / inject_Z 1000) = false).
  { destruct (float_overflow (millis / inject_Z 1000)) eqn:E; [| reflexivity].
    apply round_binary64_overflow in E. unfold epoch_second in Hrange. lia. }
  destruct t as [| b | [z | x] | s | l | d]; simpl in Ht;
    try discriminate Ht; injection Ht as <-; cbn [to_Q Qnum_of];
    try rewrite Hno; reflexivity.
Qed.

(** On a record whose time is a number and an instant of the
    calendar, [get_year] returns the local year of that instant. *)
Lemma get_year_in_calendar (quake t : json) (millis : Q) :
  property quake "time" = Some t ->
  to_Q t = Some millis ->
  in_calendar utcoffset millis = true ->
  get_year utcoffset quake = Ok (local_year utcoffset millis).
Proof.
  intros Hp Ht Hcal.
  apply in_calendar_spec in Hcal as [Htime Hyear].
  apply property_subscript in Hp.
  rewrite get_year_of_timestamp. unfold timestamp_of. rewrite Hp.
  cbn [bind]. rewrite (truediv_in_range t millis Ht Htime). cbn [bind].
  unfold local_year, epoch_second in *.
  rewrite (date_fromtimestamp_in_calendar _ Htime Hyear). reflexivity.
Qed.

(** [get_year] returns on no other record, and nothing else. *)
Lemma get_year_Ok_inv (quake : json) (y : Z) :
  get_year utcoffset quake = Ok y ->
  exists t millis,
    property quake "time" = Some t /\
    to_Q t = Some millis /\
    in_calendar utcoffset millis = true /\
    y = local_year utcoffset millis.
Proof.
  rewrite get_year_of_timestamp. intros H.
  apply bind_Ok in H as (t & Ht & H).
  apply bind_Ok in H as (x & Hdiv & H).
  apply bind_Ok in H as (d & Hd & H).
  injection H as <-.
  apply truediv_Ok in Hdiv as (millis & Hq & ->).
  exists t, millis.
  split; [apply property_subscript; exact Ht |].
  split; [exact Hq |].
  pose proof (date_fromtimestamp_time_t _ _ Hd) as Htime.
  apply date_fromtimestamp_Ok in Hd as [-> Hyear].
  split; [| reflexivity].
  apply in_calendar_spec. split; assumption.
Qed.

(** C8, as amended.  On a given machine [get_year] places a record in
    exactly one year, or in none: it returns [y] exactly when the
    record's [properties.time] is a number, an instant of the
    calendar, and [y] is the year of the local date at that instant.
    The year is that of the machine's time zone, not of the timestamp
    alone. *)
Theorem get_year_exactly_one (quake : json) (y : Z) :
  get_year utcoffset quake = Ok y <->
  exists t millis,
    property quake "time" = Some t /\
    to_Q t = Some millis /\
    in_calendar utcoffset millis = true /\
    y = local_year utcoffset millis.
Proof.
  split.
  - apply get_year_Ok_inv.
  - intros (t & millis & Hp & Ht & Hcal & ->).
    apply (get_year_in_calendar quake t millis Hp Ht Hcal).
Qed.

(** The loop counts the valid records, and a record it counts is
    valid once its magnitude is a double. *)
Lemma read_quake_valid (record : json) (y : Z) (m : json) :
  valid_record utcoffset record = Some (y, m) ->
  read_quake utcoffset record = Ok (y, m).
Proof.
  unfold valid_record.
  destruct (property record "time") as [t |] eqn:Hp; [| discriminate].
  destruct (property record "mag") as [m' |] eqn:Hm; [| discriminate].
  destruct (to_Q t) as [millis |] eqn:Ht; [| discriminate].
  destruct (is_double m' && in_calendar utcoffset millis) eqn:E;
    [| discriminate].
  intros H. injection H as <- <-.
  apply andb_prop in E as [_ Hcal].
  unfold read_quake, get_magnitude.
  rewrite (get_year_in_calendar record t millis Hp Ht Hcal).
  apply property_subscript in Hm. cbn [bind]. rewrite Hm. reflexivity.
Qed.

Lemma read_quake_magnitude (record : json) (y : Z) (m : json) :
  read_quake utcoffset record = Ok (y, m) ->
  property record "mag" = Some m.
Proof.
  unfold read_quake. intros H.
  apply bind_Ok in H as (y' & _ & H).
  apply bind_Ok in H as (m' & Hm & H).
  injection H as _ <-. apply property_subscript. exact Hm.
Qed.

Lemma read_quake_Ok_valid (record : json) (y : Z) (m : json) :
  read_quake utcoffset record = Ok (y, m) ->
  is_double m = true ->
  valid_record utcoffset record = Some (y, m).
Proof.
  intros H Hdouble.
  pose proof (read_quake_magnitude record y m H) as Hm.
  unfold read_quake in H.
  apply bind_Ok in H as (y' & Hy & H).
  apply bind_Ok in H as (m' & _ & H).
  injection H as -> _.
  apply get_year_Ok_inv in Hy as (t & millis & Hp & Ht & Hcal & ->).
  unfold valid_record. rewrite Hp, Hm, Ht, Hdouble, Hcal. reflexivity.
Qed.

Lemma read_quake_Raise_invalid (record : json) (e : exn) :
  read_quake utcoffset record = Raise e ->
  valid_record utcoffset record = None.
Proof.
  intros H.
  destruct (valid_record utcoffset record) as [[y m] |] eqn:E;
    [| reflexivity].
  apply read_quake_valid in E. congruence.
Qed.

(** When every counted magnitude is a double, the magnitudes the loop
    files under a year are those of the valid records of that year,
    in input order. *)
Lemma magnitudes_of_valid_records (y : Z) (earthquakes : list json) :
  (forall record y' m,
     In record earthquakes ->
     read_quake utcoffset record = Ok (y', m) -> is_double m = true) ->
  magnitudes_of_year utcoffset y earthquakes =
    map magnitude_of (filter (valid_in_year utcoffset y) earthquakes).
Proof.
  induction earthquakes as [| record rest IH]; intros Hdouble.
  - reflexivity.
  - assert (IH' : magnitudes_of_year utcoffset y rest =
                  map magnitude_of (filter (valid_in_year utcoffset y) rest)).
    { apply IH. intros r y' m Hin. apply Hdouble. right. exact Hin. }
    simpl. unfold valid_in_year at 1.
    destruct (read_quake utcoffset record) as [[y' m] | e] eqn:Hread.
    + assert (Hd : is_double m = true)
        by (apply (Hdouble record y' m); [left; reflexivity | exact Hread]).
      rewrite (read_quake_Ok_valid record y' m Hread Hd).
      destruct (y' =? y); [| exact IH'].
      simpl. unfold magnitude_of at 1.
      rewrite (read_quake_magnitude record y' m Hread), IH'. reflexivity.
    + rewrite (read_quake_Raise_invalid record e Hread). exact IH'.
Qed.

(** Among plain elements [np.mean] returns only on doubles. *)
Lemma np_mean_plain_Ok (ms : list json) (a : Q) :
  ms <> [] ->
  forallb plain_magnitude ms = true ->
  np_mean np_mean_floats np_mean_other ms = Ok a ->
  forallb is_double ms = true /\ a = float64_mean np_mean_floats ms.
Proof.
  intros Hne Hplain. unfold np_mean.
  destruct ms as [| m ms']; [contradiction |].
  destruct (forallb is_double (m :: ms')).
  - intros H. injection H as <-. split; reflexivity.
  - rewrite Hplain. discriminate.
Qed.

(** What [get_annual_statistics] leaves under a year when it returns
    and every magnitude it counted is a double. *)
Lemma statistics_of_year (earthquakes : list json)
    (qpy : list (Z * nat)) (avg : list (Z * Q)) (y : Z) :
  (forall record y' m,
     In record earthquakes ->
     read_quake utcoffset record = Ok (y', m) -> is_double m = true) ->
  get_annual_statistics utcoffset np_mean_floats np_mean_other earthquakes
    = Ok (qpy, avg) ->
  let records := filter (valid_in_year utcoffset y) earthquakes in
  match records with
  | [] => lookup qpy y = None /\ lookup avg y = None
  | _ =>
      lookup qpy y = Some (List.length records) /\
      lookup avg y
        = Some (float64_mean np_mean_floats (map magnitude_of records))
  end.
Proof.
  intros Hdouble H records.
  apply get_annual_statistics_inv in H as (mpy & Hloop & Havg).
  destruct (record_quakes_lookup utcoffset _ _ _ y Hloop) as [Hq Hm].
  simpl in Hq, Hm.
  pose proof (average_magnitudes_lookup np_mean_floats np_mean_other
                _ _ y Havg) as Ha.
  rewrite Hm in Ha.
  assert (Hall : forallb is_double (magnitudes_of_year utcoffset y earthquakes)
                 = true).
  { apply forallb_forall. intros m Hin.
    apply In_magnitudes_of_year in Hin as (record & Hin & Hread).
    apply (Hdouble record y m Hin Hread). }
  rewrite (magnitudes_of_valid_records y earthquakes Hdouble) in Hq, Ha, Hall.
  fold records in Hq, Ha, Hall.
  destruct records as [| r rs].
  - split; assumption.
  - simpl map in Hq, Ha, Hall. destruct Ha as (a & Hlook & Hmean).
    rewrite np_mean_doubles in Hmean; [| discriminate | exact Hall].
    injection Hmean as <-.
    split; [| exact Hlook].
    rewrite Hq. simpl. rewrite length_map. reflexivity.
Qed.

(** When the function returns on records whose magnitudes are plain
    (none a nested list or an integer beyond [2^53]), every magnitude
    it counted is a double: [np.mean] would have raised [TypeError]
    on any other. *)
Lemma counted_magnitudes_are_doubles (earthquakes : list json)
    (qpy : list (Z * nat)) (avg : list (Z * Q)) :
  (forall record m,
     In record earthquakes ->
     property record "mag" = Some m -> plain_magnitude m = true) ->
  get_annual_statistics utcoffset np_mean_floats np_mean_other earthquakes
    = Ok (qpy, avg) ->
  forall record y m,
    In record earthquakes ->
    read_quake utcoffset record = Ok (y, m) -> is_double m = true.
Proof.
  intros Hplain H record y m Hin Hread.
  apply get_annual_statistics_inv in H as (mpy & Hloop & Havg).
  destruct (record_quakes_lookup utcoffset _ _ _ y Hloop) as [_ Hm].
  simpl in Hm.
  pose proof (average_magnitudes_lookup np_mean_floats np_mean_other
                _ _ y Havg) as Ha.
  rewrite Hm in Ha.
  assert (Hall : forallb plain_magnitude
                   (magnitudes_of_year utcoffset y earthquakes) = true).
  { apply forallb_forall. intros m' Hin'.
    apply In_magnitudes_of_year in Hin' as (record' & Hin' & Hread').
    apply (Hplain record' m' Hin').
    apply (read_quake_magnitude record' y m' Hread'). }
  assert (Hmem : In m (magnitudes_of_year utcoffset y earthquakes)).
  { apply In_magnitudes_of_year. exists record. auto. }
  destruct (magnitudes_of_year utcoffset y earthquakes) as [| m0 ms0];
    [destruct Hmem |].
  destruct Ha as (a & _ & Hmean).
  apply np_mean_plain_Ok in Hmean as [Hdouble _];
    [| discriminate | exact Hall].
  rewrite forallb_forall in Hdouble. apply Hdouble. exact Hmem.
Qed.

(** Whenever the function returns on records with plain magnitudes,
    its result is the grouping of the valid records. *)
Lemma statistics_of_returning_run (earthquakes : list json)
    (qpy : list (Z * nat)) (avg : list (Z * Q)) (y : Z) :
  (forall record m,
     In record earthquakes ->
     property record "mag" = Some m -> plain_magnitude m = true) ->
  get_annual_statistics utcoffset np_mean_floats np_mean_other earthquakes
    = Ok (qpy, avg) ->
  let records := filter (valid_in_year utcoffset y) earthquakes in
  match records with
  | [] => lookup qpy y = None /\ lookup avg y = None
  | _ =>
      lookup qpy y = Some (List.length records) /\
      lookup avg y
        = Some (float64_mean np_mean_floats (map magnitude_of records))
  end.
Proof.
  intros Hplain H. apply statistics_of_year; [| exact H].
  apply (counted_magnitudes_are_doubles earthquakes qpy avg Hplain H).
Qed.




End StatisticsMore.

(** * Further properties of [print_summary] and of the charts *)

Section SummaryMore.

Import PlotEarthquakes.

Lemma In_insert_sorted (a x : Z) (l : list Z) :
  In x (insert_sorted a l) <-> x = a \/ In x l.
Proof.
  induction l as [| y rest IH]; simpl.
  - intuition.
  - destruct (a <=? y); simpl; [intuition |].
    rewrite IH. intuition.
Qed.

Lemma In_sorted (x : Z) (l : list Z) : In x (sorted l) <-> In x l.
Proof.
  induction l as [| a rest IH]; simpl; [reflexivity |].
  rewrite In_insert_sorted, IH. intuition.
Qed.

Lemma insert_sorted_StronglySorted (a : Z) (l : list Z) :
  StronglySorted Z.le l -> StronglySorted Z.le (insert_sorted a l).
Proof.
  induction l as [| y rest IH]; simpl; intros Hs.
  - constructor; [constructor | constructor].
  - inversion Hs as [| y0 l0 Hrest Hall]; subst.
    destruct (Z.leb_spec a y) as [Hle | Hgt].
    + constructor; [exact Hs |].
      constructor; [exact Hle |].
      apply Forall_forall. intros z Hz.
      rewrite Forall_forall in Hall. specialize (Hall z Hz). lia.
    + constructor; [apply IH; exact Hrest |].
      apply Forall_forall. intros z Hz.
      apply In_insert_sorted in Hz as [-> | Hz]; [lia |].
      rewrite Forall_forall in Hall. apply Hall. exact Hz.
Qed.

Lemma sorted_StronglySorted (l : list Z) : StronglySorted Z.le (sorted l).
Proof.
  induction l as [| a rest IH]; simpl.
  - constructor.
  - apply insert_sorted_StronglySorted. exact IH.
Qed.

Lemma insert_sorted_Permutation (a : Z) (l : list Z) :
  Permutation (insert_sorted a l) (a :: l).
Proof.
  induction l as [| y rest IH]; simpl.
  - apply Permutation_refl.
  - destruct (a <=? y); [apply Permutation_refl |].
    eapply Permutation_trans; [apply perm_skip; exact IH | apply perm_swap].
Qed.

Lemma sorted_Permutation (l : list Z) : Permutation (sorted l) l.
Proof.
  induction l as [| a rest IH]; simpl.
  - constructor.
  - eapply Permutation_trans; [apply insert_sorted_Permutation |].
    apply perm_skip. exact IH.
Qed.

(** In a sorted list the first item is the least and the last the
    greatest. *)
Lemma first_item_least (l : list Z) (lo : Z) :
  StronglySorted Z.le l -> first_item l = Ok lo ->
  In lo l /\ forall x, In x l -> lo <= x.
Proof.
  destruct l as [| y rest]; simpl; intros Hs H; [discriminate |].
  injection H as <-. split; [left; reflexivity |].
  inversion Hs as [| y0 l0 _ Hall]; subst.
  intros x [<- | Hx]; [lia |].
  rewrite Forall_forall in Hall. apply Hall. exact Hx.
Qed.

Lemma last_cons (l : list Z) :
  forall z y : Z, last (z :: l) y = last l z.
Proof.
  induction l as [| a rest IH]; intros z y; [reflexivity |].
  change (last (z :: a :: rest) y) with (last (a :: rest) y).
  rewrite !IH. reflexivity.
Qed.

Lemma last_greatest (l : list Z) :
  forall y, StronglySorted Z.le (y :: l) ->
            In (last l y) (y :: l) /\ forall x, In x (y :: l) -> x <= last l y.
Proof.
  induction l as [| z rest IH]; intros y Hs.
  - simpl. split; [left; reflexivity |]. intros x [<- | []]. lia.
  - inversion Hs as [| y0 l0 Hrest Hall]; subst.
    destruct (IH z Hrest) as [Hin Hmax].
    rewrite last_cons.
    split; [right; exact Hin |].
    intros x [<- | Hx]; [| apply Hmax; exact Hx].
    rewrite Forall_forall in Hall.
    specialize (Hall z (or_introl eq_refl)).
    specialize (Hmax z (or_introl eq_refl)). lia.
Qed.

Lemma last_item_greatest (l : list Z) (hi : Z) :
  StronglySorted Z.le l -> last_item l = Ok hi ->
  In hi l /\ forall x, In x l -> x <= hi.
Proof.
  destruct l as [| y rest]; simpl; intros Hs H; [discriminate |].
  injection H as <-. apply last_greatest. exact Hs.
Qed.

(** [max_from] keeps the first entry whose count is greatest: either
    nothing exceeded the start, or the dictionary splits around the
    kept entry with strictly smaller counts before it and none greater
    after it. *)
Lemma max_from_first (d : list (Z * nat)) :
  forall (best : Z) (n : nat),
    (max_from best n d = best /\
     forall k c, In (k, c) d -> (c <= n)%nat) \/
    exists before after c,
      d = before ++ (max_from best n d, c) :: after /\ (n < c)%nat /\
      (forall k' c', In (k', c') before -> (c' < c)%nat) /\
      (forall k' c', In (k', c') after -> (c' <= c)%nat).
Proof.
  induction d as [| [k c] rest IH]; intros best n; simpl.
  - left. split; [reflexivity | intros k c []].
  - destruct (Nat.ltb_spec n c) as [Hlt | Hge].
    + right. destruct (IH k c)
        as [[Hk Hall] | (before & after & c1 & Hsplit & Hc1 & Hb & Ha)].
      * exists [], rest, c. rewrite Hk.
        split; [reflexivity |]. split; [exact Hlt |].
        split; [intros k' c' [] | exact Hall].
      * exists ((k, c) :: before), after, c1.
        split; [simpl; rewrite <- Hsplit; reflexivity |].
        split; [lia |]. split; [| exact Ha].
        intros k' c' [H | H]; [injection H as <- <-; lia | eapply Hb; exact H].
    + destruct (IH best n)
        as [[Hk Hall] | (before & after & c1 & Hsplit & Hc1 & Hb & Ha)].
      * left. split; [exact Hk |].
        intros k' c' [H | H]; [injection H as <- <-; lia | eapply Hall; exact H].
      * right. exists ((k, c) :: before), after, c1.
        split; [simpl; rewrite <- Hsplit; reflexivity |].
        split; [exact Hc1 |]. split; [| exact Ha].
        intros k' c' [H | H]; [injection H as <- <-; lia | eapply Hb; exact H].
Qed.

Lemma min_from_first (d : list (Z * nat)) :
  forall (best : Z) (n : nat),
    (min_from best n d = best /\
     forall k c, In (k, c) d -> (n <= c)%nat) \/
    exists before after c,
      d = before ++ (min_from best n d, c) :: after /\ (c < n)%nat /\
      (forall k' c', In (k', c') before -> (c < c')%nat) /\
      (forall k' c', In (k', c') after -> (c <= c')%nat).
Proof.
  induction d as [| [k c] rest IH]; intros best n; simpl.
  - left. split; [reflexivity | intros k c []].
  - destruct (Nat.ltb_spec c n) as [Hlt | Hge].
    + right. destruct (IH k c)
        as [[Hk Hall] | (before & after & c1 & Hsplit & Hc1 & Hb & Ha)].
      * exists [], rest, c. rewrite Hk.
        split; [reflexivity |]. split; [exact Hlt |].
        split; [intros k' c' [] | exact Hall].
      * exists ((k, c) :: before), after, c1.
        split; [simpl; rewrite <- Hsplit; reflexivity |].
        split; [lia |]. split; [| exact Ha].
        intros k' c' [H | H]; [injection H as <- <-; lia | eapply Hb; exact H].
    + destruct (IH best n)
        as [[Hk Hall] | (before & after & c1 & Hsplit & Hc1 & Hb & Ha)].
      * left. split; [exact Hk |].
        intros k' c' [H | H]; [injection H as <- <-; lia | eapply Hall; exact H].
      * right. exists ((k, c) :: before), after, c1.
        split; [simpl; rewrite <- Hsplit; reflexivity |].
        split; [exact Hc1 |]. split; [| exact Ha].
        intros k' c' [H | H]; [injection H as <- <-; lia | eapply Hb; exact H].
Qed.

(** In a dictionary, whose keys are distinct, an entry is what its key
    looks up. *)
Lemma lookup_entry {V : Type} (d : list (Z * V)) (k : Z) (v : V) :
  NoDup (keys d) -> In (k, v) d -> lookup d k = Some v.
Proof.
  unfold keys. induction d as [| [k' v'] rest IH]; simpl; intros Hnd Hin.
  - destruct Hin.
  - inversion Hnd as [| x l Hnotin Hnd']; subst.
    destruct Hin as [H | H].
    + injection H as -> ->. rewrite Z.eqb_refl. reflexivity.
    + destruct (Z.eqb_spec k' k) as [-> | _]; [| apply IH; assumption].
      exfalso. apply Hnotin. apply (in_map fst) in H. exact H.
Qed.

(** What [print_summary] writes once its seven values are known. *)
Lemma print_summary_lines (qpy : list (Z * nat)) (avg : list (Z * Q))
    (lo hi ymax ymin : Z) (a : Q) (cmax cmin : nat) :
  first_item (sorted (keys qpy)) = Ok lo ->
  last_item (sorted (keys qpy)) = Ok hi ->
  int_truediv (list_sum (values qpy)) (List.length (sorted (keys qpy))) = Ok a ->
  max_by_count qpy = Ok ymax ->
  min_by_count qpy = Ok ymin ->
  getitem qpy ymax = Ok cmax ->
  getitem qpy ymin = Ok cmin ->
  print_summary qpy avg =
    ([Text "=== EARTHQUAKE DATA SUMMARY ===";
      TimePeriod lo hi;
      TotalEarthquakes (list_sum (values qpy));
      YearsCovered (List.length (sorted (keys qpy)));
      AveragePerYear a;
      MostActiveYear ymax cmax;
      LeastActiveYear ymin cmin], Ok tt).
Proof.
  intros Hlo Hhi Ha Hmax Hmin Hcmax Hcmin.
  unfold print_summary. rewrite Hlo, Hhi, Ha, Hmax, Hmin.
  cbn [io_bind lift print app]. rewrite Hcmax.
  cbn [io_bind lift print app]. rewrite Hcmin.
  reflexivity.
Qed.

(** On a non-empty dictionary each of the seven values exists. *)
Lemma print_summary_values (qpy : list (Z * nat)) :
  qpy <> [] ->
  exists lo hi ymax ymin cmax cmin,
    first_item (sorted (keys qpy)) = Ok lo /\
    last_item (sorted (keys qpy)) = Ok hi /\
    int_truediv (list_sum (values qpy)) (List.length (sorted (keys qpy)))
      = Ok (inject_Z (Z.of_nat (list_sum (values qpy)))
            / inject_Z (Z.of_nat (List.length qpy)))%Q /\
    max_by_count qpy = Ok ymax /\
    min_by_count qpy = Ok ymin /\
    getitem qpy ymax = Ok cmax /\
    getitem qpy ymin = Ok cmin.
Proof.
  intros Hne. destruct qpy as [| [k0 n0] rest]; [contradiction |].
  pose proof (sorted_length (keys ((k0, n0) :: rest))) as Hlen.
  assert (Hkeys : List.length (keys ((k0, n0) :: rest))
                  = List.length ((k0, n0) :: rest)).
  { unfold keys. apply length_map. }
  rewrite Hkeys in Hlen.
  destruct (sorted (keys ((k0, n0) :: rest))) as [| y0 years];
    [discriminate Hlen |].
  destruct (lookup_key ((k0, n0) :: rest) (max_from k0 n0 rest)) as [c1 H1].
  { destruct (max_from_key rest k0 n0) as [-> | H]; [left | right]; auto. }
  destruct (lookup_key ((k0, n0) :: rest) (min_from k0 n0 rest)) as [c2 H2].
  { destruct (min_from_key rest k0 n0) as [-> | H]; [left | right]; auto. }
  exists y0, (last years y0), (max_from k0 n0 rest), (min_from k0 n0 rest),
    c1, c2.
  unfold getitem. rewrite H1, H2, Hlen.
  repeat split; reflexivity.
Qed.


(** X12. On a non-empty dictionary, the year [print_summary] reports as
    most active is the first entry, in the dictionary's order, that
    has the greatest count, and the one it reports as least active the
    first that has the least; each is reported with its own count. *)
Theorem print_summary_most_and_least_active
    (qpy : list (Z * nat)) (avg : list (Z * Q)) :
  NoDup (keys qpy) ->
  qpy <> [] ->
  exists ymax cmax ymin cmin,
    nth_error (fst (print_summary qpy avg)) 5
      = Some (MostActiveYear ymax cmax) /\
    nth_error (fst (print_summary qpy avg)) 6
      = Some (LeastActiveYear ymin cmin) /\
    (exists before after,
       qpy = before ++ (ymax, cmax) :: after /\
       (forall k c, In (k, c) before -> (c < cmax)%nat) /\
       (forall k c, In (k, c) after -> (c <= cmax)%nat)) /\
    (exists before after,
       qpy = before ++ (ymin, cmin) :: after /\
       (forall k c, In (k, c) before -> (cmin < c)%nat) /\
       (forall k c, In (k, c) after -> (cmin <= c)%nat)).
Proof.
  intros Hnd Hne.
  destruct (print_summary_values qpy Hne)
    as (lo & hi & ymax & ymin & cmax & cmin
        & Hlo & Hhi & Ha & Hmax & Hmin & Hcmax & Hcmin).
  exists ymax, cmax, ymin, cmin.
  rewrite (print_summary_lines qpy avg _ _ _ _ _ _ _
             Hlo Hhi Ha Hmax Hmin Hcmax Hcmin).
  split; [reflexivity |]. split; [reflexivity |].
  destruct qpy as [| [k0 n0] rest]; [contradiction |].
  simpl in Hmax, Hmin. injection Hmax as <-. injection Hmin as <-.
  unfold getitem in Hcmax, Hcmin.
  split.
  - destruct (max_from_first rest k0 n0)
      as [[Hk Hall] | (before & after & c & Hsplit & Hc & Hb & Ha')].
    + rewrite Hk in Hcmax |- *. simpl in Hcmax. rewrite Z.eqb_refl in Hcmax.
      injection Hcmax as <-.
      exists [], rest. split; [reflexivity |].
      split; [intros k c [] | exact Hall].
    + assert (Hin : In (max_from k0 n0 rest, c) ((k0, n0) :: rest)).
      { pose proof (in_elt (max_from k0 n0 rest, c) before after) as Hin'.
        rewrite <- Hsplit in Hin'. right. exact Hin'. }
      rewrite (lookup_entry _ _ _ Hnd Hin) in Hcmax. injection Hcmax as <-.
      exists ((k0, n0) :: before), after.
      split; [simpl; rewrite <- Hsplit; reflexivity |].
      split; [| exact Ha'].
      intros k c' [H | H]; [injection H as <- <-; exact Hc | eapply Hb; exact H].
  - destruct (min_from_first rest k0 n0)
      as [[Hk Hall] | (before & after & c & Hsplit & Hc & Hb & Ha')].
    + rewrite Hk in Hcmin |- *. simpl in Hcmin. rewrite Z.eqb_refl in Hcmin.
      injection Hcmin as <-.
      exists [], rest. split; [reflexivity |].
      split; [intros k c [] | exact Hall].
    + assert (Hin : In (min_from k0 n0 rest, c) ((k0, n0) :: rest)).
      { pose proof (in_elt (min_from k0 n0 rest, c) before after) as Hin'.
        rewrite <- Hsplit in Hin'. right. exact Hin'. }
      rewrite (lookup_entry _ _ _ Hnd Hin) in Hcmin. injection Hcmin as <-.
      exists ((k0, n0) :: before), after.
      split; [simpl; rewrite <- Hsplit; reflexivity |].
      split; [| exact Ha'].
      intros k c' [H | H]; [injection H as <- <-; exact Hc | eapply Hb; exact H].
Qed.

End SummaryMore.

(** * The charts *)

Section Charts.

Import PlotEarthquakes.
Import Plots.

(** Looking up keys of the dictionary never raises, and yields the
    value of each key in turn. *)
Lemma getitems_total {V : Type} (d : list (Z * V)) (years : list Z) :
  (forall y, In y years -> In y (keys d)) ->
  exists vs,
    getitems d years = Ok vs /\
    Forall2 (fun y v => lookup d y = Some v) years vs.
Proof.
  induction years as [| y rest IH]; intros Hsub; simpl.
  - exists []. split; [reflexivity | constructor].
  - destruct (lookup_key d y (Hsub y (or_introl eq_refl))) as [v Hv].
    destruct IH as (vs & Hvs & Hall).
    { intros y' Hin. apply Hsub. right. exact Hin. }
    unfold getitem. rewrite Hv. simpl. rewrite Hvs. simpl.
    exists (v :: vs). split; [reflexivity |].
    constructor; assumption.
Qed.

Lemma getitems_sorted_keys {V : Type} (d : list (Z * V)) :
  exists vs,
    getitems d (sorted (keys d)) = Ok vs /\
    Forall2 (fun y v => lookup d y = Some v) (sorted (keys d)) vs.
Proof.
  apply getitems_total. intros y Hy. apply In_sorted. exact Hy.
Qed.

(** X13. Neither plotting function can fail while it assembles its chart,
    not even on an empty dictionary: the points run over the years of
    the dictionary in ascending order, each point carries the value
    stored under its year, and the ticks and the values written at the
    points are those same years and values. *)
Theorem charts_follow_the_years :
  (forall quakes_per_year : list (Z * nat),
     exists c,
       plot_earthquake_frequency quakes_per_year = Ok c /\
       StronglySorted Z.le (xs c) /\
       Permutation (xs c) (keys quakes_per_year) /\
       Forall2 (fun y n => lookup quakes_per_year y = Some n) (xs c) (ys c) /\
       xticks c = xs c /\ labels c = ys c /\
       savefig c = "earthquakes_per_year.png") /\
  (forall avg_magnitudes : list (Z * Q),
     exists c,
       plot_average_magnitude avg_magnitudes = Ok c /\
       StronglySorted Z.le (xs c) /\
       Permutation (xs c) (keys avg_magnitudes) /\
       Forall2 (fun y a => lookup avg_magnitudes y = Some a) (xs c) (ys c) /\
       xticks c = xs c /\ labels c = ys c /\
       savefig c = "average_magnitude.png").
Proof.
  split.
  - intros d. destruct (getitems_sorted_keys d) as (vs & Hvs & Hall).
    unfold plot_earthquake_frequency. rewrite Hvs. simpl.
    eexists. split; [reflexivity |]. simpl.
    split; [apply sorted_StronglySorted |].
    split; [apply sorted_Permutation |].
    split; [exact Hall |]. repeat split.
  - intros d. destruct (getitems_sorted_keys d) as (vs & Hvs & Hall).
    unfold plot_average_magnitude. rewrite Hvs. simpl.
    eexists. split; [reflexivity |]. simpl.
    split; [apply sorted_StronglySorted |].
    split; [apply sorted_Permutation |].
    split; [exact Hall |]. repeat split.
Qed.

Lemma list_sum_Permutation (l l' : list nat) :
  Permutation l l' -> list_sum l = list_sum l'.
Proof.
  induction 1; simpl; lia.
Qed.

Lemma values_by_lookup (d : list (Z * nat)) :
  NoDup (keys d) ->
  map (fun y => get_default 0%nat (lookup d y)) (keys d) = values d.
Proof.
  unfold keys, values.
  induction d as [| [k v] rest IH]; simpl; intros Hnd; [reflexivity |].
  inversion Hnd as [| x l Hnotin Hnd']; subst.
  rewrite Z.eqb_refl. simpl. f_equal.
  rewrite <- (IH Hnd'). apply map_ext_in.
  intros y Hy. destruct (Z.eqb_spec k y) as [-> | _]; [contradiction |].
  reflexivity.
Qed.

Lemma Forall2_lookup_map (d : list (Z * nat)) (years : list Z) (vs : list nat) :
  Forall2 (fun y v => lookup d y = Some v) years vs ->
  vs = map (fun y => get_default 0%nat (lookup d y)) years.
Proof.
  induction 1 as [| y v years vs Hy _ IH]; simpl; [reflexivity |].
  rewrite Hy, <- IH. reflexivity.
Qed.

(** X14. The bars of the frequency chart add up to the total of the
    dictionary, the number [print_summary] reports. *)
Theorem bars_add_up_to_total
    (quakes_per_year : list (Z * nat)) (c : chart nat) :
  NoDup (keys quakes_per_year) ->
  plot_earthquake_frequency quakes_per_year = Ok c ->
  list_sum (ys c) = list_sum (values quakes_per_year).
Proof.
  intros Hnd Hc.
  destruct (getitems_sorted_keys quakes_per_year) as (vs & Hvs & Hall).
  unfold plot_earthquake_frequency in Hc. rewrite Hvs in Hc. simpl in Hc.
  injection Hc as <-. simpl.
  rewrite (Forall2_lookup_map _ _ _ Hall), <- (values_by_lookup _ Hnd).
  apply list_sum_Permutation. apply Permutation_map.
  apply sorted_Permutation.
Qed.

End Charts.

(** * Further properties of fetching and of the sample data *)

Section FetchMore.

Import PlotEarthquakes.
Import Plots.

Variable utcoffset : Z -> Z.
Variable mktime : Z -> Z.
Variable randint : nat -> Z -> Z -> Z.
Variable uniform : nat -> Q -> Q -> Q.
Variable np_mean_floats : list Q -> Q.
Variable np_mean_other : list json -> result Q.
Variable json_error_is_request_exception : bool.

(** X15. [get_data] has three outcomes.  It returns the body of the
    response, having printed nothing, only when the status is not 4xx
    or 5xx; it returns the sample data exactly when it has printed its
    notice; and it never lets a [RequestException] out. *)
Theorem get_data_outcomes (requests_get : result response) :
  (forall out data,
     get_data mktime randint uniform json_error_is_request_exception
              requests_get = (out, Ok data) ->
     (out = [] /\
      exists r, requests_get = Ok r /\ body r = Some data /\
                ~ (400 <= status_code r < 600)) \/
     (out = [Text "Using sample data (API request failed)"] /\
      data = create_sample_data mktime randint uniform)) /\
  (forall out e,
     get_data mktime randint uniform json_error_is_request_exception
              requests_get = (out, Raise e) ->
     out = [] /\
     is_RequestException json_error_is_request_exception e = false).
Proof.
  unfold get_data.
  destruct requests_get as [r | e0]; simpl.
  - unfold raise_for_status, response_json.
    destruct ((400 <=? status_code r) && (status_code r <? 600)) eqn:Hstatus;
      simpl.
    + split; [| intros out e H; discriminate H].
      intros out data H. injection H as <- <-. right. auto.
    + destruct (body r) as [d |] eqn:Hbody; simpl.
      * split; [| intros out e H; discriminate H].
        intros out data H. injection H as <- <-. left.
        split; [reflexivity |]. exists r.
        split; [reflexivity |]. split; [exact Hbody |].
        intros [Hlo Hhi]. apply Z.leb_le in Hlo. apply Z.ltb_lt in Hhi.
        rewrite Hlo, Hhi in Hstatus. discriminate Hstatus.
      * destruct json_error_is_request_exception; simpl.
        -- split; [| intros out e H; discriminate H].
           intros out data H. injection H as <- <-. right. auto.
        -- split; [intros out data H; discriminate H |].
           intros out e H. injection H as <- <-. auto.
  - destruct (is_RequestException json_error_is_request_exception e0) eqn:He;
      simpl.
    + split; [| intros out e H; discriminate H].
      intros out data H. injection H as <- <-. right. auto.
    + split; [intros out data H; discriminate H |].
      intros out e H. injection H as <- <-. auto.
Qed.

(** ** The sample magnitudes *)

Lemma round1_form (x : Q) :
  exists n, round1 x = Qmake n 10 /\
    (n = Qfloor (x * 10) \/
     (n = Qfloor (x * 10) + 1 /\
      (inject_Z (Qfloor (x * 10)) + (1 # 2) <= x * 10)%Q)).
Proof.
  unfold round1.
  destruct (Qle_bool (x * 10 - inject_Z (Qfloor (x * 10))) (1 # 2)) eqn:E1.
  - destruct (Qle_bool (1 # 2) (x * 10 - inject_Z (Qfloor (x * 10)))) eqn:E2.
    + apply Qle_bool_iff in E2.
      destruct (Z.even (Qfloor (x * 10))); eexists; split; try reflexivity.
      * left; reflexivity.
      * right. split; [reflexivity | lra].
    + eexists; split; [reflexivity | left; reflexivity].
  - eexists; split; [reflexivity |]. right. split; [reflexivity |].
    assert (H : ~ (x * 10 - inject_Z (Qfloor (x * 10)) <= 1 # 2)%Q).
    { intros H. apply Qle_bool_iff in H. congruence. }
    apply Qnot_le_lt in H. lra.
Qed.

(** Rounding to one decimal keeps a value between 1 and 6 between 1
    and 6. *)
Lemma round1_bounds (x : Q) :
  (1 <= x <= 6)%Q ->
  exists n, round1 x = Qmake n 10 /\ 10 <= n <= 60.
Proof.
  intros [Hlo Hhi].
  assert (H10 : (10 <= x * 10)%Q) by lra.
  assert (H60 : (x * 10 <= 60)%Q) by lra.
  pose proof (Qfloor_resp_le _ _ H10) as Hf10.
  pose proof (Qfloor_resp_le _ _ H60) as Hf60.
  change (Qfloor 10) with 10 in Hf10. change (Qfloor 60) with 60 in Hf60.
  destruct (round1_form x) as (n & Hn & [Hn' | [Hn' Hhalf]]);
    exists n; (split; [exact Hn |]); subst n.
  - lia.
  - assert (Hlt : (inject_Z (Qfloor (x * 10)) < inject_Z 60)%Q).
    { change (inject_Z 60) with 60%Q. lra. }
    rewrite <- Zlt_Qlt in Hlt. lia.
Qed.

(** X16. When [random.uniform(1.0, 6.0)] stays within its bounds, every
    sample record has a magnitude of a whole number of tenths between
    1.0 and 6.0. *)
Theorem sample_magnitudes_in_range (r : json) :
  (forall i, (1 <= uniform i 1 6 <= 6)%Q) ->
  In r (map (sample_feature mktime randint uniform) (seq 0 sample_size)) ->
  exists n,
    get_magnitude r = Ok (JNum (Float (Qmake n 10))) /\ 10 <= n <= 60.
Proof.
  intros Huniform Hin.
  apply in_map_iff in Hin as (i & <- & _).
  destruct (round1_bounds (uniform i 1 6) (Huniform i)) as (n & Hn & Hrange).
  exists n. split; [| exact Hrange].
  unfold sample_feature. rewrite Hn. reflexivity.
Qed.

(** ** Aggregating the sample data *)

(** A whole number of seconds, given in milliseconds, is divided
    back exactly as long as a double can hold it. *)
Lemma truediv_millis (t : Z) :
  Z.abs t <= 2 ^ 53 ->
  exists x, truediv (JNum (Int (t * 1000))) 1000 = Ok x /\ Qfloor x = t.
Proof.
  intros Ht. unfold truediv. cbn [to_Q Qnum_of].
  set (x := (inject_Z (t * 1000) / inject_Z 1000)%Q).
  assert (Hx : (x == inject_Z t)%Q).
  { unfold x. rewrite inject_Z_mult. field. }
  assert (Hfloor : Qfloor (round_binary64 x) = t).
  { rewrite (round_binary64_integer x t Hx Ht). apply Qfloor_Z. }
  exists (round_binary64 x). split; [| exact Hfloor].
  destruct (float_overflow x) eqn:E; [| reflexivity].
  apply round_binary64_overflow in E. rewrite Hfloor in E.
  assert (H53 : 2 ^ 53 < 2 ^ 63) by reflexivity.
  unfold TIME_T_MIN, TIME_T_MAX in E. lia.
Qed.

(** Every day from 2000-01-01 to 2018-10-11 lies in a year from 2000
    to 2018. *)
Lemma sample_days_years (d : Z) :
  base_date <= d <= end_date ->
  2000 <= year (civil_from_days d) <= 2018.
Proof.
  assert (Hbase : base_date = 10957) by reflexivity.
  assert (Hend : end_date = 17815) by reflexivity.
  rewrite Hbase, Hend. intros Hd.
  assert (Hall : forallb
            (fun k => let y := year (civil_from_days (10957 + Z.of_nat k)) in
                      (2000 <=? y) && (y <=? 2018))
            (seq 0 (Z.to_nat 6859)) = true) by (vm_compute; reflexivity).
  rewrite forallb_forall in Hall.
  specialize (Hall (Z.to_nat (d - 10957))).
  rewrite Z2Nat.id in Hall by lia.
  replace (10957 + (d - 10957)) with d in Hall by lia.
  cbv zeta in Hall.
  assert (Hin : In (Z.to_nat (d - 10957)) (seq 0 (Z.to_nat 6859))).
  { apply in_seq. lia. }
  apply Hall in Hin. apply andb_prop in Hin as [Hlo Hhi].
  apply Z.leb_le in Hlo. apply Z.leb_le in Hhi. split; assumption.
Qed.

Section SaneClock.

(** The local date at the instant [mktime] gives for a wall-clock time
    is the date of that wall-clock time. *)
Hypothesis mktime_same_day :
  forall w, (mktime w + utcoffset (mktime w)) / 86400 = w / 86400.

(** The instant [mktime] gives for a wall-clock time of the sampled
    period is one whose milliseconds a double holds exactly, as the
    product [earthquake_time.timestamp() * 1000], which is computed in
    floats, requires. *)
Hypothesis timestamp_is_double :
  forall w, base_date * 86400 <= w <= end_date * 86400 ->
            Z.abs (mktime w * 1000) <= 2 ^ 53.

(** [random.randint(a, b)] stays within its bounds. *)
Hypothesis randint_in_range :
  forall i a b, a <= b -> a <= randint i a b <= b.

(** A sample record is read back under the year of the day that was
    drawn for it. *)
Lemma read_sample_feature (i : nat) :
  exists y,
    read_quake utcoffset (sample_feature mktime randint uniform i)
      = Ok (y, JNum (Float (round1 (uniform i 1 6)))) /\
    2000 <= y <= 2018.
Proof.
  assert (Hrange : 0 <= days_range) by (vm_compute; discriminate).
  pose proof (randint_in_range i 0 days_range Hrange) as Hrd.
  assert (Hday : base_date <= base_date + randint i 0 days_range <= end_date).
  { assert (Hdr : days_range = end_date - base_date) by reflexivity. lia. }
  pose proof (sample_days_years _ Hday) as Hyear.
  set (d := base_date + randint i 0 days_range) in *.
  exists (year (civil_from_days d)).
  split; [| exact Hyear].
  assert (Ht : timestamp_of (sample_feature mktime randint uniform i)
               = Ok (JNum (Int (mktime (d * 86400) * 1000))))
    by reflexivity.
  assert (Hm : get_magnitude (sample_feature mktime randint uniform i)
               = Ok (JNum (Float (round1 (uniform i 1 6)))))
    by reflexivity.
  assert (Hms : Z.abs (mktime (d * 86400)) <= 2 ^ 53).
  { assert (Hw : base_date * 86400 <= d * 86400 <= end_date * 86400) by lia.
    pose proof (timestamp_is_double _ Hw). lia. }
  destruct (truediv_millis _ Hms) as (x & Hdiv & Hfloor).
  unfold read_quake. rewrite get_year_of_timestamp, Ht, Hm.
  cbn [bind]. rewrite Hdiv. cbn [bind].
  assert (Hday' : (Qfloor x + utcoffset (Qfloor x)) / 86400 = d).
  { rewrite Hfloor, mktime_same_day. apply Z.div_mul. discriminate. }
  rewrite (date_fromtimestamp_in_calendar utcoffset x).
  - rewrite Hday'. reflexivity.
  - rewrite Hfloor.
    assert (H53 : 2 ^ 53 < 2 ^ 63) by reflexivity.
    unfold TIME_T_MIN, TIME_T_MAX. lia.
  - rewrite Hday'. unfold MINYEAR, MAXYEAR. lia.
Qed.

(** On a machine with a sane clock and a sane random generator the
    sample data aggregate without error: all 1000 records are
    counted, and every year of the result lies between 2000 and
    2018. *)
Lemma sample_data_aggregate :
  exists qpy avg,
    get_annual_statistics utcoffset np_mean_floats np_mean_other
      (map (sample_feature mktime randint uniform) (seq 0 sample_size))
      = Ok (qpy, avg) /\
    list_sum (values qpy) = 1000%nat /\
    forall y, In y (keys qpy) -> 2000 <= y <= 2018.
Proof.
  set (features := map (sample_feature mktime randint uniform)
                       (seq 0 sample_size)).
  assert (Hread : forall quake, In quake features ->
            exists y m, read_quake utcoffset quake = Ok (y, m) /\
                        is_double m = true /\ 2000 <= y <= 2018).
  { intros quake Hin. apply in_map_iff in Hin as (i & <- & _).
    destruct (read_sample_feature i) as (y & Hy & Hrange).
    exists y, (JNum (Float (round1 (uniform i 1 6)))). auto. }
  destruct (get_annual_statistics_total utcoffset np_mean_floats np_mean_other features)
    as (qpy & avg & Hstats).
  { intros quake Hin. destruct (Hread quake Hin) as (y & m & H & Hm & _).
    exists y, m. auto. }
  exists qpy, avg. split; [exact Hstats |]. split.
  - apply get_annual_statistics_inv in Hstats as (mpy & Hloop & _).
    apply record_quakes_sum in Hloop. cbn [fst] in Hloop. rewrite Hloop.
    assert (Hall : forallb (counted utcoffset) features = true).
    { apply forallb_forall. intros quake Hin.
      destruct (Hread quake Hin) as (y & m & H & _).
      unfold counted. rewrite H. reflexivity. }
    apply filter_length_forallb in Hall. rewrite Hall.
    unfold features. rewrite length_map, length_seq. reflexivity.
  - intros y Hin. apply lookup_key in Hin.
    apply (year_present_iff utcoffset np_mean_floats np_mean_other _ _ _ y Hstats) in Hin
      as (quake & m & Hq & Hr).
    destruct (Hread quake Hq) as (y' & m' & Hr' & _ & Hrange).
    rewrite Hr in Hr'. injection Hr' as <- <-. exact Hrange.
Qed.

(** X17. When the request fails, on a machine with a sane clock and a sane
    random generator, the program runs to its end on the sample data:
    it prints its notice and the seven lines of the summary, whose
    total is 1000 and whose period lies within 2000 to 2018, and then
    saves the two charts. *)
Theorem main_runs_on_sample_data (requests_get : result response) :
  (exists e, requests_get = Raise e /\
             is_RequestException json_error_is_request_exception e = true) \/
  (exists r, requests_get = Ok r /\ 400 <= status_code r < 600) ->
  exists lo hi n a ymax cmax ymin cmin bars curve,
    main utcoffset mktime randint uniform np_mean_floats np_mean_other
         json_error_is_request_exception requests_get
      = ([Printed (Text "Using sample data (API request failed)");
          Printed (Text "=== EARTHQUAKE DATA SUMMARY ===");
          Printed (TimePeriod lo hi);
          Printed (TotalEarthquakes 1000);
          Printed (YearsCovered n);
          Printed (AveragePerYear a);
          Printed (MostActiveYear ymax cmax);
          Printed (LeastActiveYear ymin cmin);
          BarChart bars;
          LineChart curve], Ok tt) /\
    2000 <= lo /\ lo <= hi /\ hi <= 2018.
Proof.
  intros Hfail.
  assert (Hget : get_data mktime randint uniform
                   json_error_is_request_exception requests_get
                 = ([Text "Using sample data (API request failed)"],
                    Ok (create_sample_data mktime randint uniform))).
  { unfold get_data.
    destruct Hfail as [(e & -> & He) | (r & -> & Hlo & Hhi)]; simpl.
    - rewrite He. reflexivity.
    - unfold raise_for_status.
      apply Z.leb_le in Hlo. apply Z.ltb_lt in Hhi. rewrite Hlo, Hhi.
      reflexivity. }
  destruct sample_data_aggregate as (qpy & avg & Hstats & Hsum & Hyears).
  assert (Hne : qpy <> []).
  { intros ->. simpl in Hsum. discriminate Hsum. }
  destruct (print_summary_values qpy Hne)
    as (lo & hi & ymax & ymin & cmax & cmin
        & Hlo & Hhi & Ha & Hmax & Hmin & Hcmax & Hcmin).
  pose proof (print_summary_lines qpy avg _ _ _ _ _ _ _
                Hlo Hhi Ha Hmax Hmin Hcmax Hcmin) as Hprint.
  destruct (getitems_sorted_keys qpy) as (counts & Hcounts & _).
  destruct (getitems_sorted_keys avg) as (means & Hmeans & _).
  destruct (first_item_least _ _ (sorted_StronglySorted (keys qpy)) Hlo)
    as [Hinlo Hleast].
  destruct (last_item_greatest _ _ (sorted_StronglySorted (keys qpy)) Hhi)
    as [Hinhi _].
  do 10 eexists. split.
  - unfold main. rewrite Hget.
    cbn [run_bind of_io of_result emit fst snd map app].
    rewrite create_sample_data_features.
    cbn [run_bind of_io of_result emit fst snd map app iter].
    rewrite Hstats.
    cbn [run_bind of_io of_result emit fst snd map app].
    rewrite Hprint, Hsum.
    unfold plot_earthquake_frequency, plot_average_magnitude.
    rewrite Hcounts, Hmeans.
    reflexivity.
  - split; [apply Hyears, In_sorted; exact Hinlo |].
    split; [apply Hleast; exact Hinhi |].
    apply Hyears, In_sorted. exact Hinhi.
Qed.

End SaneClock.

(** X18. When the feed answers with a document none of whose records can
    be counted, the program prints the heading of the summary, fails
    with [IndexError] and saves no chart. *)
Theorem main_fails_on_empty_statistics
    (r : response) (data : json) (features : list json) :
  ~ (400 <= status_code r < 600) ->
  body r = Some data ->
  subscript data "features" = Ok (JList features) ->
  forallb (skipped utcoffset) features = true ->
  main utcoffset mktime randint uniform np_mean_floats np_mean_other
       json_error_is_request_exception (Ok r)
    = ([Printed (Text "=== EARTHQUAKE DATA SUMMARY ===")], Raise IndexError).
Proof.
  intros Hstatus Hbody Hf Hskipped.
  assert (Hget : get_data mktime randint uniform
                   json_error_is_request_exception (Ok r)
                 = ([], Ok data)).
  { unfold get_data, raise_for_status, response_json. simpl.
    destruct ((400 <=? status_code r) && (status_code r <? 600)) eqn:E.
    - exfalso. apply Hstatus. apply andb_prop in E as [Hlo Hhi].
      apply Z.leb_le in Hlo. apply Z.ltb_lt in Hhi. split; assumption.
    - simpl. rewrite Hbody. reflexivity. }
  unfold main. rewrite Hget.
  cbn [run_bind of_io of_result emit fst snd map app].
  rewrite Hf.
  cbn [run_bind of_io of_result emit fst snd map app iter].
  rewrite (get_annual_statistics_all_skipped utcoffset np_mean_floats np_mean_other
             features Hskipped).
  reflexivity.
Qed.

End FetchMore.

(** * The further properties at sample inputs *)

Section MoreInstances.

Import Earthquakes.
Import EarthquakesScript.

Lemma get_maximum_selects_first_witness :
  exists before e after q,
    [quake_weak; quake_strong; quake_strong_too] = before ++ e :: after /\
    has_magnitude e (JNum (Float (47 # 10))) q /\
    get_location e
      = Ok (JNum (Float (534 # 10)), JNum (Float (-3 # 10))) /\
    (forall e', In e' before ->
       exists m' q', has_magnitude e' m' q' /\ (q' < q)%Q) /\
    (forall e', In e' after ->
       exists m' q', has_magnitude e' m' q' /\ (q' <= q)%Q).
Proof.
  apply (get_maximum_selects_first tied_quakes); reflexivity.
Defined.

Lemma get_maximum_fails_on_bad_record_witness :
  exists err,
    get_maximum unrated_quakes = Raise err /\
    is_KeyError_or_TypeError err = true.
Proof.
  apply (get_maximum_fails_on_bad_record unrated_quakes quake_unrated
           [quake_strong; quake_unrated] eq_refl).
  - right. left. reflexivity.
  - intros m q [Hm Hq]. vm_compute in Hm. injection Hm as <-.
    discriminate Hq.
Defined.

Lemma get_maximum_stable_under_weaker_witness :
  get_maximum strong_then_weak
    = Ok (JNum (Float (47 # 10)),
          (JNum (Float (534 # 10)), JNum (Float (-3 # 10)))).
Proof.
  apply (get_maximum_stable_under_weaker strong_quake_only strong_then_weak
           _ _ (47 # 10) [quake_strong] [quake_weak]
           eq_refl eq_refl eq_refl eq_refl).
  intros e [<- | []].
  exists (JNum (Float (19 # 10))), (19 # 10).
  split; [split; reflexivity |]. unfold Qle. simpl. lia.
Defined.

Lemma script_reports_count_first_witness :
  exists m loc,
    get_maximum two_quakes = Ok (m, loc) /\
    (1 <= 2)%nat /\
    [Loaded 2;
     Strongest (JNum (Float (534 # 10)), JNum (Float (-3 # 10)))
               (JNum (Float (47 # 10)))]
      = [Loaded 2; Strongest loc m].
Proof.
  apply (script_reports_count_first response_two_quakes two_quakes
           [quake_weak; quake_strong] eq_refl eq_refl).
  reflexivity.
Defined.

End MoreInstances.

Section PlotInstances.

Import PlotEarthquakes.
Import Plots.

Lemma get_annual_statistics_out_of_range_witness :
  exists e',
    get_annual_statistics UTC binary64_mean np_mean_ragged
      [quake_2000; quake_far_future] = Raise e' /\
    is_KeyError_or_TypeError e' = false /\ is_range_error e' = true.
Proof.
  apply (get_annual_statistics_out_of_range UTC binary64_mean np_mean_ragged
           [quake_2000; quake_far_future] quake_far_future ValueError).
  - right. left. reflexivity.
  - vm_compute. reflexivity.
  - reflexivity.
Defined.

Lemma statistics_share_their_years_witness :
  exists avg,
    get_annual_statistics UTC binary64_mean np_mean_ragged four_quakes
      = Ok ([(2000, 2%nat); (2017, 1%nat)], avg) /\
    keys avg = keys [(2000, 2%nat); (2017, 1%nat)] /\
    NoDup (keys [(2000, 2%nat); (2017, 1%nat)]) /\
    forall y, In y (keys [(2000, 2%nat); (2017, 1%nat)]) ->
              MINYEAR <= y <= MAXYEAR.
Proof.
  eexists. split; [vm_compute; reflexivity |].
  eapply (statistics_share_their_years UTC binary64_mean np_mean_ragged
            four_quakes).
  vm_compute. reflexivity.
Defined.

Lemma counts_add_over_concatenation_witness :
  get_default 0%nat (lookup [(2000, 2%nat); (2017, 1%nat)] 2000) =
    Nat.add (get_default 0%nat (lookup [(2000, 1%nat); (2017, 1%nat)] 2000))
            (get_default 0%nat (lookup [(2000, 1%nat)] 2000)).
Proof.
  eapply (counts_add_over_concatenation UTC binary64_mean np_mean_ragged
            [quake_2000; quake_2017] [quake_2000]);
    vm_compute; reflexivity.
Defined.

Lemma counts_ignore_order_witness :
  lookup [(2000, 1%nat); (2017, 1%nat)] 2017
    = lookup [(2017, 1%nat); (2000, 1%nat)] 2017.
Proof.
  eapply (counts_ignore_order UTC binary64_mean np_mean_ragged
            [quake_2000; quake_2017] [quake_2017; quake_2000]).
  - apply perm_swap.
  - vm_compute. reflexivity.
  - vm_compute. reflexivity.
Defined.


Lemma print_summary_most_and_least_active_witness :
  exists ymax cmax ymin cmin,
    nth_error (fst (print_summary [(2017, 1%nat); (2000, 2%nat)] [])) 5
      = Some (MostActiveYear ymax cmax) /\
    nth_error (fst (print_summary [(2017, 1%nat); (2000, 2%nat)] [])) 6
      = Some (LeastActiveYear ymin cmin) /\
    (exists before after,
       [(2017, 1%nat); (2000, 2%nat)] = before ++ (ymax, cmax) :: after /\
       (forall k c, In (k, c) before -> (c < cmax)%nat) /\
       (forall k c, In (k, c) after -> (c <= cmax)%nat)) /\
    (exists before after,
       [(2017, 1%nat); (2000, 2%nat)] = before ++ (ymin, cmin) :: after /\
       (forall k c, In (k, c) before -> (cmin < c)%nat) /\
       (forall k c, In (k, c) after -> (cmin <= c)%nat)).
Proof.
  apply (print_summary_most_and_least_active
           [(2017, 1%nat); (2000, 2%nat)] []).
  - repeat constructor; simpl; intuition discriminate.
  - discriminate.
Defined.

Lemma bars_add_up_to_total_witness :
  exists c,
    plot_earthquake_frequency [(2017, 1%nat); (2000, 2%nat)] = Ok c /\
    list_sum (ys c) = 3%nat.
Proof.
  eexists. split; [reflexivity |].
  apply (bars_add_up_to_total [(2017, 1%nat); (2000, 2%nat)]).
  - repeat constructor; simpl; intuition discriminate.
  - reflexivity.
Defined.

Lemma sample_magnitudes_in_range_witness :
  exists n,
    get_magnitude (sample_feature mktime_UTC randint_first uniform_example 7)
      = Ok (JNum (Float (Qmake n 10))) /\ 10 <= n <= 60.
Proof.
  apply (sample_magnitudes_in_range mktime_UTC randint_first uniform_example).
  - intros i. unfold uniform_example, Qle. simpl. lia.
  - apply in_map. apply in_seq. unfold sample_size. lia.
Defined.

Lemma main_runs_on_sample_data_witness :
  exists lo hi n a ymax cmax ymin cmin bars curve,
    main UTC mktime_UTC randint_first uniform_example binary64_mean
         np_mean_ragged true
         (Ok response_503)
      = ([Printed (Text "Using sample data (API request failed)");
          Printed (Text "=== EARTHQUAKE DATA SUMMARY ===");
          Printed (TimePeriod lo hi);
          Printed (TotalEarthquakes 1000);
          Printed (YearsCovered n);
          Printed (AveragePerYear a);
          Printed (MostActiveYear ymax cmax);
          Printed (LeastActiveYear ymin cmin);
          BarChart bars;
          LineChart curve], Ok tt) /\
    2000 <= lo /\ lo <= hi /\ hi <= 2018.
Proof.
  apply (main_runs_on_sample_data UTC mktime_UTC randint_first uniform_example
           binary64_mean np_mean_ragged true).
  - intros w. unfold mktime_UTC, UTC. rewrite Z.add_0_r. reflexivity.
  - intros w Hw. unfold mktime_UTC.
    assert (Hbase : base_date = 10957) by reflexivity.
    assert (Hend : end_date = 17815) by reflexivity.
    assert (H53 : 2 ^ 53 = 9007199254740992) by reflexivity.
    rewrite Hbase, Hend in Hw. lia.
  - intros i a b Hab. unfold randint_first. lia.
  - right. exists response_503. split; [reflexivity | simpl; lia].
Defined.

Lemma main_fails_on_empty_statistics_witness :
  main UTC mktime_UTC randint_first uniform_example binary64_mean
         np_mean_ragged true
       (Ok response_no_time)
    = ([Printed (Text "=== EARTHQUAKE DATA SUMMARY ===")], Raise IndexError).
Proof.
  apply (main_fails_on_empty_statistics UTC mktime_UTC randint_first
           uniform_example binary64_mean np_mean_ragged true response_no_time
           (JDict [("features", JList [quake_no_time])]) [quake_no_time]).
  - simpl. lia.
  - reflexivity.
  - reflexivity.
  - reflexivity.
Defined.

Lemma get_year_exactly_one_witness :
  get_year CET quake_new_year = Ok 2000.
Proof.
  apply (proj2 (get_year_exactly_one CET quake_new_year 2000)).
  exists (JNum (Int 946684799000)), (inject_Z 946684799000).
  split; [reflexivity |]. split; [reflexivity |].
  split; vm_compute; reflexivity.
Defined.



End PlotInstances.
